(** * OpenCode session and streaming layer

    A shallow embedding of [src/core/opencode/OpencodeService.ts] (the
    backend client together with its response normaliser) and of
    [src/core/opencode/OpencodeServiceWrapper.ts] (the adapter onto
    [IAgentService]), followed by the properties of the session and
    streaming contract.  The factory of [src/core/agent/IAgentService.ts],
    the environment-string functions of
    [src/core/storage/migrationConstants.ts] and the CLI resolver of
    [src/utils/opencodeCli.ts] are embedded as well.

    Conventions of the embedding:
    - an [async] method is a state transformer over a [World]: the fields of
      the service object, the state of the remote server and a log of the
      requests that left the process;
    - an [async *] generator is run to completion and returns the list of the
      chunks it yielded, in emission order;
    - a remote call either resolves or rejects ([outcome]); [try]/[catch] is
      a match on that outcome;
    - optional properties and [null]/[undefined] are [option]. *)

From Stdlib Require Import String Ascii List Bool ZArith Lia.
Import ListNotations.
Open Scope string_scope.

Set Implicit Arguments.

(** ** JavaScript primitives used by the two classes *)

Module JS.

(** Truthiness of a string: only the empty string is falsy. *)
Definition truthy_string (s : string) : bool :=
  match s with
  | EmptyString => false
  | String _ _ => true
  end.

(** Truthiness of a [string | null | undefined]. *)
Definition truthy (o : option string) : bool :=
  match o with
  | Some s => truthy_string s
  | None => false
  end.

(** [a ?? b] *)
Definition nullish {A : Type} (a : option A) (b : A) : A :=
  match a with
  | Some x => x
  | None => b
  end.

(** [a ?? b] where [b] may itself be missing. *)
Definition nullish_opt {A : Type} (a b : option A) : option A :=
  match a with
  | Some x => Some x
  | None => b
  end.

(** [s.split(sep)] for a one-character separator.  The result is never
    empty: a string without separator is returned whole, and the empty
    string splits into one empty segment. *)
Fixpoint split (sep : ascii) (s : string) : list string :=
  match s with
  | EmptyString => [EmptyString]
  | String c rest =>
      if Ascii.eqb c sep then EmptyString :: split sep rest
      else match split sep rest with
           | [] => [String c EmptyString]
           | seg :: segs => String c seg :: segs
           end
  end.

(** [s.includes(c)] for a single character. *)
Fixpoint includes (c : ascii) (s : string) : bool :=
  match s with
  | EmptyString => false
  | String d rest => Ascii.eqb d c || includes c rest
  end.

(** What a [catch (error)] clause may receive: an [Error] instance with its
    message, or any other thrown value. *)
Inductive thrown : Type :=
| ErrorObject (message : string)
| OtherValue.

(** [error instanceof Error ? error.message : 'Unknown error'] *)
Definition error_message (e : thrown) : string :=
  match e with
  | ErrorObject m => m
  | OtherValue => "Unknown error"
  end.

(** Settlement of an awaited promise. *)
Inductive outcome (A : Type) : Type :=
| Resolved (a : A)
| Rejected (e : thrown).

Arguments Resolved {A} a.
Arguments Rejected {A} e.

End JS.

Import JS.

(** ** State passing

    Methods are written in a state monad; [St S A] is a computation over a
    state [S] with a result in [A]. *)

Definition St (S A : Type) : Type := S -> A * S.

Definition ret {S A : Type} (a : A) : St S A := fun s => (a, s).

Definition bind {S A B : Type} (m : St S A) (k : A -> St S B) : St S B :=
  fun s => let (a, s') := m s in k a s'.

Declare Scope st_scope.
Delimit Scope st_scope with st.
Notation "x <- m ;; k" := (bind m (fun x => k))
  (at level 61, m at next level, right associativity) : st_scope.
Notation "m ;;; k" := (bind m (fun _ => k))
  (at level 61, right associativity) : st_scope.
Open Scope st_scope.

Definition colon : ascii := ":"%char.

(** ** [types.ts]

    JavaScript numbers are integers here: the code copies them and fills
    in defaults, it never computes with them.  Payloads the code only
    passes along (tool inputs, image attachments, MCP server tables) are
    kept as plain strings and association lists. *)

Module Types.

(** [OpencodeQueryOptions] *)
Record OpencodeQueryOptions : Type := {
  model : option string;
  provider : option string;
  allowedTools : option (list string);
  sessionId : option string;
  externalContextPaths : option (list string);
  mcpServers : option (list (string * string));
  images : option (list string)
}.

(** [OpencodeStreamChunk].  The tag is kept as the string it is at run time,
    since the adapter switches on it as a string. *)
Record OpencodeStreamChunk : Type := {
  type : string;
  content : option string;
  toolId : option string;
  toolName : option string;
  toolInput : option (list (string * string));
  result : option string;
  chunkSessionId : option string;
  inputTokens : option Z;
  outputTokens : option Z;
  error : option string
}.

(** The object literal [{ type: t, content: c }]. *)
Definition chunk (t : string) (c : option string) : OpencodeStreamChunk :=
  {| type := t; content := c; toolId := None; toolName := None;
     toolInput := None; result := None; chunkSessionId := None;
     inputTokens := None; outputTokens := None; error := None |}.

(** [OpencodeModelCost], without the nested over-200k table. *)
Record OpencodeModelCost : Type := {
  costInput : Z;
  costOutput : Z;
  cacheRead : option Z;
  cacheWrite : option Z
}.

(** [OpencodeModelLimit]; the fields are read through [?.] and [??], so
    each may be absent. *)
Record OpencodeModelLimit : Type := {
  context : option Z;
  output : option Z
}.

(** The fields of [OpencodeModelInfo] read by [getModels], together with
    the nested [capabilities.reasoning] the SDK really sends. *)
Record OpencodeModelInfo : Type := {
  name : string;
  capabilities_reasoning : option bool;
  reasoning : option bool;
  temperature : bool;
  cost : option OpencodeModelCost;
  limit : option OpencodeModelLimit
}.

(** [OpencodeProvider]; [models] is the record in [Object.entries] order. *)
Record OpencodeProvider : Type := {
  api : option string;
  providerName : string;
  env : list string;
  id : string;
  npm : option string;
  models : list (string * OpencodeModelInfo)
}.

(** [OpencodeModel], the selector entry. *)
Record OpencodeModel : Type := {
  value : string;
  label : string;
  description : string;
  modelProvider : string;
  modelProviderName : string;
  modelId : string;
  modelReasoning : bool;
  modelTemperature : bool;
  contextLimit : Z;
  outputLimit : Z;
  modelCost : option OpencodeModelCost
}.

(** Body of [SessionPromptData]. *)
Inductive PromptPart : Type :=
| TextPart (text : string)
| FilePart (fileId mime filename data : option string).

Record ModelSelector : Type := {
  providerID : string;
  modelID : string
}.

Record PromptBody : Type := {
  parts : list PromptPart;
  bodyModel : option ModelSelector;
  noReply : bool
}.

(** One element of [response.parts]: [part.type as string] and
    [part.text as string | undefined]. *)
Record ResponsePart : Type := {
  partType : string;
  partText : option string
}.

(** [result.data as { info?, parts? }]; only [parts] is read. *)
Record PromptResponse : Type := {
  responseParts : option (list ResponsePart)
}.

End Types.

Import Types.

(** ** [OpencodeService.ts]: the backend client and its normaliser *)

Module OpencodeService.

Section Service.

(** State of the remote server, and the payloads typed [unknown]. *)
Context {remote unknown : Type}.

(** [toLocaleString] of the host, used for the context size shown in a
    model's description. *)
Variable toLocaleString : Z -> string.

(** A remote endpoint: it answers from the server's state and may change it. *)
Definition endpoint (A : Type) : Type := remote -> outcome A * remote.

(** The SDK client, as far as the service looks into it.  Every method is
    reached through optional chaining ([client.session?.create] and the
    like), hence may be missing. *)
Record Client : Type := {
  global_health : option (endpoint bool);
  config_providers : option (endpoint (list OpencodeProvider));
  session_create : option (string -> endpoint string);
  session_get : option (string -> endpoint unknown);
  session_list : option (endpoint (list unknown));
  session_delete : option (string -> endpoint bool);
  session_prompt : option (string -> PromptBody -> endpoint PromptResponse);
  session_messages : option (string -> endpoint (list unknown));
  session_share : option (string -> endpoint string);
  session_abort : option (string -> endpoint bool)
}.

(** [OpencodeServerConfig] as the constructor fills it. *)
Record Config : Type := {
  hostname : string;
  port : Z;
  timeout : Z
}.

Record AbortController : Type := {
  aborted : bool
}.

(** The private fields of the class. *)
Record Service : Type := {
  config : Config;
  client : option Client;
  currentSessionId : option string;
  abortController : option AbortController;
  cachedProviders : option (list OpencodeProvider);
  cachedModels : option (list OpencodeModel)
}.

(** What leaves the object: requests to the server, the local abort signal
    and console output.  [QueryEntered] marks an entry into the body of
    [query]. *)
Inductive Event : Type :=
| GlobalHealth
| ConfigProviders
| SessionCreate (title : string)
| SessionGet (id : string)
| SessionList
| SessionDelete (id : string)
| SessionPrompt (id : string) (body : PromptBody)
| SessionMessages (id : string)
| SessionShare (id : string)
| SessionAbort (id : string)
| AbortSignal
| ConsoleError (message : string)
| QueryEntered (prompt : string).

Record World : Type := {
  svc : Service;
  net : remote;
  log : list Event
}.

(** *** Primitive steps *)

Definition M (A : Type) : Type := St World A.

Definition this : M Service := fun w => (svc w, w).

Definition update (f : Service -> Service) : M unit :=
  fun w => (tt, {| svc := f (svc w); net := net w; log := log w |}).

Definition emit (e : Event) : M unit :=
  fun w => (tt, {| svc := svc w; net := net w; log := log w ++ [e] |}).

(** [await f(...)]: the request is logged, the server answers. *)
Definition await {A : Type} (e : Event) (f : endpoint A) : M (outcome A) :=
  fun w =>
    let (r, n) := f (net w) in
    (r, {| svc := svc w; net := n; log := log w ++ [e] |}).

(** Field assignments. *)
Definition set_client (c : option Client) (s : Service) : Service :=
  {| config := config s; client := c;
     currentSessionId := currentSessionId s;
     abortController := abortController s;
     cachedProviders := cachedProviders s; cachedModels := cachedModels s |}.

Definition set_currentSessionId (i : option string) (s : Service) : Service :=
  {| config := config s; client := client s;
     currentSessionId := i;
     abortController := abortController s;
     cachedProviders := cachedProviders s; cachedModels := cachedModels s |}.

Definition set_abortController (a : option AbortController) (s : Service)
  : Service :=
  {| config := config s; client := client s;
     currentSessionId := currentSessionId s;
     abortController := a;
     cachedProviders := cachedProviders s; cachedModels := cachedModels s |}.

Definition set_cachedProviders (p : option (list OpencodeProvider))
  (s : Service) : Service :=
  {| config := config s; client := client s;
     currentSessionId := currentSessionId s;
     abortController := abortController s;
     cachedProviders := p; cachedModels := cachedModels s |}.

Definition set_cachedModels (m : option (list OpencodeModel)) (s : Service)
  : Service :=
  {| config := config s; client := client s;
     currentSessionId := currentSessionId s;
     abortController := abortController s;
     cachedProviders := cachedProviders s; cachedModels := m |}.


(** *** Lifecycle and probes *)

(** [constructor(config?)] *)
Definition new (hostname_ : option string) (port_ timeout_ : option Z)
  : Service :=
  {| config := {| hostname := nullish hostname_ "127.0.0.1";
                  port := nullish port_ 4096%Z;
                  timeout := nullish timeout_ 5000%Z |};
     client := None; currentSessionId := None; abortController := None;
     cachedProviders := None; cachedModels := None |}.

(** [initialize()].  [sdk] is what importing the SDK and calling
    [createOpencodeClient] gives: a client, or an exception. *)
Definition initialize (sdk : outcome Client) : M bool :=
  match sdk with
  | Resolved c => update (set_client (Some c)) ;;; ret true
  | Rejected _ => ret false
  end.

(** [healthCheck()] *)
Definition healthCheck : M bool :=
  s <- this ;;
  match client s with
  | None => ret false
  | Some c =>
      match global_health c with
      | Some health =>
          r <- await GlobalHealth health ;;
          match r with
          | Resolved healthy => ret healthy
          | Rejected _ => ret false
          end
      | None => ret false
      end
  end.

(** The conversion of a number to a string in a template literal. *)
Variable numberToString : Z -> string.

(** [getServerUrl()] *)
Definition getServerUrl : M string :=
  s <- this ;;
  ret ("http://" ++ hostname (config s) ++ ":"
       ++ numberToString (port (config s))).

(** *** Capability discovery *)

(** [getProviders()] *)
Definition getProviders : M (list OpencodeProvider) :=
  s <- this ;;
  match cachedProviders s with
  | Some cached => ret cached
  | None =>
      match client s with
      | None => ret []
      | Some c =>
          match config_providers c with
          | None => ret []
          | Some providers =>
              r <- await ConfigProviders providers ;;
              match r with
              | Resolved ps =>
                  update (set_cachedProviders (Some ps)) ;;; ret ps
              | Rejected _ => ret []
              end
          end
      end
  end.

(** The compound key [`${provider.id}:${modelId}`]. *)
Definition compoundKey (providerId modelId_ : string) : string :=
  providerId ++ ":" ++ modelId_.

(** The object pushed for one entry of [provider.models]. *)
Definition selectorEntry (p : OpencodeProvider)
  (entry : string * OpencodeModelInfo) : OpencodeModel :=
  let (modelId_, m) := entry in
  let reasoning_ :=
    nullish (nullish_opt (capabilities_reasoning m) (reasoning m)) false in
  {| value := compoundKey (id p) modelId_;
     label := name m ++ " (" ++ providerName p ++ ")";
     description :=
       "Context: "
       ++ nullish (option_map toLocaleString
                     (match limit m with Some l => context l | None => None end))
                  "Unknown"
       ++ " tokens" ++ (if reasoning_ then " • Reasoning" else "");
     modelProvider := id p;
     modelProviderName := providerName p;
     modelId := modelId_;
     modelReasoning := reasoning_;
     modelTemperature := temperature m;
     contextLimit :=
       nullish (match limit m with Some l => context l | None => None end)
               200000%Z;
     outputLimit :=
       nullish (match limit m with Some l => output l | None => None end)
               8192%Z;
     modelCost := cost m |}.

(** The two nested [for ... of] loops of [getModels]. *)
Fixpoint flatten (providers : list OpencodeProvider) : list OpencodeModel :=
  match providers with
  | [] => []
  | p :: rest => map (selectorEntry p) (models p) ++ flatten rest
  end.

(** [getModels()] *)
Definition getModels : M (list OpencodeModel) :=
  s <- this ;;
  match cachedModels s with
  | Some cached => ret cached
  | None =>
      providers <- getProviders ;;
      let models_ := flatten providers in
      update (set_cachedModels (Some models_)) ;;; ret models_
  end.

(** [clearCache()] *)
Definition clearCache : M unit :=
  update (set_cachedProviders None) ;;; update (set_cachedModels None).

(** *** Sessions *)

(** [createSession(title?)] *)
Definition createSession (title : option string) : M (option string) :=
  s <- this ;;
  match client s with
  | None => emit (ConsoleError "[OpenCode] Client not initialized") ;;; ret None
  | Some c =>
      match session_create c with
      | None =>
          emit (ConsoleError "[OpenCode] session.create method not available")
          ;;; ret None
      | Some create =>
          let t := nullish title "OpenCode Session" in
          r <- await (SessionCreate t) (create t) ;;
          match r with
          | Resolved newId =>
              update (set_currentSessionId (Some newId)) ;;; ret (Some newId)
          | Rejected _ => ret None
          end
      end
  end.

(** [getSession(sessionId)] *)
Definition getSession (sessionId_ : string) : M (option unknown) :=
  s <- this ;;
  match client s with
  | None => ret None
  | Some c =>
      match session_get c with
      | None => ret None
      | Some get =>
          r <- await (SessionGet sessionId_) (get sessionId_) ;;
          match r with
          | Resolved data => ret (Some data)
          | Rejected _ => ret None
          end
      end
  end.

(** [listSessions()] *)
Definition listSessions : M (list unknown) :=
  s <- this ;;
  match client s with
  | None => ret []
  | Some c =>
      match session_list c with
      | None => ret []
      | Some list_ =>
          r <- await SessionList list_ ;;
          match r with
          | Resolved data => ret data
          | Rejected _ => ret []
          end
      end
  end.

(** [this.currentSessionId === sessionId] *)
Definition isCurrent (s : Service) (sessionId_ : string) : bool :=
  match currentSessionId s with
  | Some cur => String.eqb cur sessionId_
  | None => false
  end.

(** [deleteSession(sessionId)] *)
Definition deleteSession (sessionId_ : string) : M bool :=
  s <- this ;;
  match client s with
  | None => ret false
  | Some c =>
      match session_delete c with
      | None => ret false
      | Some delete =>
          r <- await (SessionDelete sessionId_) (delete sessionId_) ;;
          match r with
          | Resolved data =>
              now <- this ;;
              (if data && isCurrent now sessionId_
               then update (set_currentSessionId None)
               else ret tt) ;;;
              ret data
          | Rejected _ => ret false
          end
      end
  end.

(** [getMessages(sessionId)] *)
Definition getMessages (sessionId_ : string) : M (list unknown) :=
  s <- this ;;
  match client s with
  | None => ret []
  | Some c =>
      match session_messages c with
      | None => ret []
      | Some messages =>
          r <- await (SessionMessages sessionId_) (messages sessionId_) ;;
          match r with
          | Resolved data => ret data
          | Rejected _ => ret []
          end
      end
  end.

(** [shareSession(sessionId)] *)
Definition shareSession (sessionId_ : string) : M (option string) :=
  s <- this ;;
  match client s with
  | None => ret None
  | Some c =>
      match session_share c with
      | None => ret None
      | Some share =>
          r <- await (SessionShare sessionId_) (share sessionId_) ;;
          match r with
          | Resolved shared => ret (Some shared)
          | Rejected _ => ret None
          end
      end
  end.

(** [setSessionId(id)] and [getSessionId()] *)
Definition setSessionId (i : option string) : M unit :=
  update (set_currentSessionId i).

Definition getSessionId : M (option string) :=
  s <- this ;; ret (currentSessionId s).

(** *** Streaming query *)

Definition errorChunk (message : string) : OpencodeStreamChunk :=
  chunk "error" (Some message).

Definition doneChunk : OpencodeStreamChunk := chunk "done" None.

(** [const [providerID, modelID] = key.split(':')] *)
Definition splitKey (key : string) : option string * option string :=
  let segments := split colon key in
  (nth_error segments 0, nth_error segments 1).

(** The [modelBody] built from [options?.model]. *)
Definition modelBody (model_ : option string) : option ModelSelector :=
  match model_ with
  | None => None
  | Some key =>
      if truthy_string key then
        match splitKey key with
        | (Some p, Some m) =>
            if truthy_string p && truthy_string m
            then Some {| providerID := p; modelID := m |}
            else None
        | _ => None
        end
      else None
  end.

(** What one response part yields. *)
Definition yieldPart (part : ResponsePart) : list OpencodeStreamChunk :=
  if String.eqb (partType part) "reasoning" && truthy (partText part)
  then [chunk "thinking" (partText part)]
  else if String.eqb (partType part) "text" && truthy (partText part)
  then [chunk "text" (partText part)]
  else [].

(** The [for] loop over [response.parts]. *)
Fixpoint yieldParts (ps : list ResponsePart) : list OpencodeStreamChunk :=
  match ps with
  | [] => []
  | part :: rest => yieldPart part ++ yieldParts rest
  end.

(** Everything yielded inside the [try] block once the response is there. *)
Definition normalise (response : PromptResponse) : list OpencodeStreamChunk :=
  match responseParts response with
  | Some (part :: rest) => yieldParts (part :: rest) ++ [doneChunk]
  | Some [] => [doneChunk]
  | None => [doneChunk]
  end.

(** The request body of [client.session.prompt]. *)
Definition promptBody (prompt : string) (model_ : option string)
  : PromptBody :=
  {| parts := [TextPart prompt];
     bodyModel := modelBody model_;
     noReply := false |}.

(** [options?.sessionId] and [options?.model] *)
Definition optSessionId (options : option OpencodeQueryOptions)
  : option string :=
  match options with Some o => sessionId o | None => None end.

Definition optModel (options : option OpencodeQueryOptions)
  : option string :=
  match options with Some o => model o | None => None end.

(** [query(prompt, options)], run until the generator returns. *)
Definition query (prompt : string) (options : option OpencodeQueryOptions)
  : M (list OpencodeStreamChunk) :=
  emit (QueryEntered prompt) ;;;
  s <- this ;;
  match client s with
  | None => ret [errorChunk "OpenCode client not initialized"]
  | Some c =>
      let sessionId_ := nullish_opt (optSessionId options) (currentSessionId s) in
      if negb (truthy sessionId_)
      then ret [errorChunk "No session ID provided"]
      else
        match session_prompt c with
        | None => ret [errorChunk "Session prompt method not available"]
        | Some prompt_ =>
            update (set_abortController (Some {| aborted := false |})) ;;;
            let sid := nullish sessionId_ "" in
            let body := promptBody prompt (optModel options) in
            r <- await (SessionPrompt sid body) (prompt_ sid body) ;;
            let yielded :=
              match r with
              | Resolved response => normalise response
              | Rejected e => [errorChunk (error_message e)]
              end in
            update (set_abortController None) ;;;
            ret yielded
        end
  end.

(** *** Cancellation and teardown *)

(** [abort()] *)
Definition abort : M unit :=
  s <- this ;;
  (match abortController s with
   | Some _ =>
       update (set_abortController (Some {| aborted := true |})) ;;;
       emit AbortSignal
   | None => ret tt
   end) ;;;
  now <- this ;;
  if truthy (currentSessionId now) then
    match client now with
    | Some c =>
        match session_abort c with
        | Some abort_ =>
            let sid := nullish (currentSessionId now) "" in
            await (SessionAbort sid) (abort_ sid) ;;; ret tt
        | None => ret tt
        end
    | None => ret tt
    end
  else ret tt.

(** [cleanup()] *)
Definition cleanup : M unit :=
  abort ;;;
  update (set_client None) ;;;
  update (set_currentSessionId None).

End Service.

Arguments Client : clear implicits.
Arguments Service : clear implicits.
Arguments World : clear implicits.
Arguments Event : clear implicits.

End OpencodeService.

(** ** [OpencodeServiceWrapper.ts]: the adapter onto [IAgentService] *)

Module OpencodeServiceWrapper.

(** Modelled from the spec: the [StreamChunk] union of [core/types], whose
    declaration is not among the sources.  The spec lists its variants
    (text delta, thinking delta, tool invocation started, tool invocation
    result, usage snapshot, terminal success marker, terminal error
    marker); the fields are those of the object literals returned by
    [convertChunk]. *)
Record UsageInfo : Type := {
  usageModel : option string;
  usageInputTokens : Z;
  cacheCreationInputTokens : Z;
  cacheReadInputTokens : Z;
  contextWindow : Z;
  contextTokens : Z;
  percentage : Z
}.

Inductive StreamChunk : Type :=
| Text (content : string)
| Thinking (content : string)
| ToolUse (id name : string) (input : list (string * string))
| ToolResult (id content : string) (isError : bool)
| Error (content : string)
| Usage (usage : UsageInfo)
| Done.

(** The parameter type of [convertChunk]. *)
Record RawUsage : Type := {
  rawInputTokens : Z;
  rawOutputTokens : Z
}.

Record RawChunk : Type := {
  rawType : string;
  rawContent : option string;
  rawMetadata : option (list (string * string));
  rawId : option string;
  rawName : option string;
  rawInput : option (list (string * string));
  rawResult : option string;
  rawUsage : option RawUsage;
  rawSessionId : option string;
  rawError : option string
}.

(** An [OpencodeStreamChunk] seen at the parameter type of [convertChunk]:
    the properties the two types share are read from the same object, the
    others ([metadata], [id], [name], [input], [usage]) are not properties
    of an [OpencodeStreamChunk] and read as [undefined]. *)
Definition asRaw (c : OpencodeStreamChunk) : RawChunk :=
  {| rawType := type c;
     rawContent := content c;
     rawMetadata := None;
     rawId := None;
     rawName := None;
     rawInput := None;
     rawResult := result c;
     rawUsage := None;
     rawSessionId := chunkSessionId c;
     rawError := error c |}.

(** [convertChunk(chunk)] *)
Definition convertChunk (c : RawChunk) : StreamChunk :=
  if String.eqb (rawType c) "text" then Text (nullish (rawContent c) "")
  else if String.eqb (rawType c) "thinking" || String.eqb (rawType c) "reasoning"
  then Thinking (nullish (rawContent c) "")
  else if String.eqb (rawType c) "tool_use"
  then ToolUse (nullish (rawId c) "") (nullish (rawName c) "unknown")
               (nullish (rawInput c) [])
  else if String.eqb (rawType c) "tool_result"
  then ToolResult (nullish (rawId c) "") (nullish (rawResult c) "") false
  else if String.eqb (rawType c) "error"
  then Error (nullish (rawError c) "Unknown error")
  else if String.eqb (rawType c) "usage"
  then Usage {| usageModel := None;
                usageInputTokens :=
                  nullish (option_map rawInputTokens (rawUsage c)) 0%Z;
                cacheCreationInputTokens := 0;
                cacheReadInputTokens := 0;
                contextWindow := 0;
                contextTokens := 0;
                percentage := 0 |}
  else if String.eqb (rawType c) "session"
  then Text ("[Session: " ++ nullish (rawSessionId c) "undefined" ++ "]")
  else if String.eqb (rawType c) "done" then Done
  else Text "".

(** The part of [AgentQueryOptions] the adapter reads. *)
Record AgentQueryOptions : Type := {
  agentAllowedTools : option (list string);
  agentModel : option string;
  forceColdStart : option bool;
  agentExternalContextPaths : option (list string)
}.

(** [ProviderModelInfo], [ProviderInfo] and [ModelSelectorItem] of
    [IAgentService.ts]. *)
Record ProviderModelInfo : Type := {
  pmId : string;
  pmName : string;
  pmReleaseDate : string;
  pmAttachment : bool;
  pmReasoning : bool;
  pmTemperature : bool;
  pmToolCall : bool;
  pmContextLimit : Z;
  pmOutputLimit : Z;
  pmCost : option OpencodeModelCost;
  pmModalities : option (list string * list string);
  pmExperimental : option bool;
  pmStatus : option string
}.

Record ProviderInfo : Type := {
  infoId : string;
  infoName : string;
  infoApi : option string;
  infoEnv : list string;
  infoModels : list (string * ProviderModelInfo);
  infoNpm : option string
}.

Record ModelSelectorItem : Type := {
  itemValue : string;
  itemLabel : string;
  itemDescription : string;
  itemProvider : string;
  itemModelId : string;
  itemReasoning : bool;
  itemTemperature : bool
}.

(** The result of the adapter's [getProviders]. *)
Record ProvidersResult : Type := {
  providers : list ProviderInfo;
  default : list (string * string)
}.

Section Wrapper.

Context {remote unknown callback : Type}.

(** The adapter's own fields; [opencodeService] is a reference to the
    service object, whose state lives in the world. *)
Record Adapter : Type := {
  approvalCallback : option callback;
  currentSessionId : option string;
  vaultPath : option string
}.

Record State : Type := {
  self : Adapter;
  opencodeService : OpencodeService.World remote unknown
}.

Definition W (A : Type) : Type := St State A.

Definition me : W Adapter := fun st => (self st, st).

Definition assign (f : Adapter -> Adapter) : W unit :=
  fun st => (tt, {| self := f (self st); opencodeService := opencodeService st |}).

(** A call on [this.opencodeService]. *)
Definition service {A : Type} (m : OpencodeService.M A) : W A :=
  fun st =>
    let (a, w) := m (opencodeService st) in
    (a, {| self := self st; opencodeService := w |}).

Definition set_currentSessionId (i : option string) (a : Adapter) : Adapter :=
  {| approvalCallback := approvalCallback a;
     currentSessionId := i;
     vaultPath := vaultPath a |}.

Definition set_approvalCallback (c : option callback) (a : Adapter)
  : Adapter :=
  {| approvalCallback := c;
     currentSessionId := currentSessionId a;
     vaultPath := vaultPath a |}.

(** [constructor(opencodeService)] *)
Definition new (w : OpencodeService.World remote unknown) : State :=
  {| self := {| approvalCallback := None; currentSessionId := None;
                vaultPath := None |};
     opencodeService := w |}.

(** [healthCheck()], [listSessions()], [getMessages(sessionId)]: passed on. *)
Definition healthCheck : W bool := service OpencodeService.healthCheck.

Definition listSessions : W (list unknown) :=
  service OpencodeService.listSessions.

Definition getMessages (sessionId_ : string) : W (list unknown) :=
  service (OpencodeService.getMessages sessionId_).

(** [createSession(title?)] *)
Definition createSession (title : option string) : W (option string) :=
  sessionId_ <- service (OpencodeService.createSession title) ;;
  (if truthy sessionId_
   then assign (set_currentSessionId sessionId_) ;;;
        service (OpencodeService.setSessionId sessionId_)
   else ret tt) ;;;
  ret sessionId_.

(** [getSessionId()] and [setSessionId(id)] *)
Definition getSessionId : W (option string) :=
  a <- me ;; ret (currentSessionId a).

Definition setSessionId (i : option string) : W unit :=
  assign (set_currentSessionId i) ;;;
  service (OpencodeService.setSessionId i).

(** The options object passed to the service's [query]. *)
Definition serviceOptions (a : Adapter) (images_ : option (list string))
  (queryOptions : option AgentQueryOptions) : OpencodeQueryOptions :=
  {| model := match queryOptions with Some o => agentModel o | None => None end;
     provider := None;
     allowedTools := None;
     sessionId := currentSessionId a;
     externalContextPaths := None;
     mcpServers := None;
     images := images_ |}.

(** The [for await] loop of [query].  The service's generator handles every
    exception itself and [convertChunk] cannot throw, so the [catch] clause
    around the loop has nothing to receive. *)
Definition forward (prompt : string) (images_ : option (list string))
  (queryOptions : option AgentQueryOptions) : W (list StreamChunk) :=
  a <- me ;;
  chunks <- service (OpencodeService.query prompt
                       (Some (serviceOptions a images_ queryOptions))) ;;
  ret (map (fun c => convertChunk (asRaw c)) chunks).

(** [query(prompt, images?, _conversationHistory?, queryOptions?)], run
    until the generator returns. *)
Definition query (prompt : string) (images_ : option (list string))
  (_conversationHistory : option (list string))
  (queryOptions : option AgentQueryOptions) : W (list StreamChunk) :=
  a <- me ;;
  if negb (truthy (currentSessionId a)) then
    sessionId_ <- createSession None ;;
    if negb (truthy sessionId_)
    then ret [Error "Failed to create OpenCode session"]
    else forward prompt images_ queryOptions
  else forward prompt images_ queryOptions.

(** [abort()], [cancel()] *)
Definition abort : W unit := service OpencodeService.abort.

Definition cancel : W unit := abort.

(** [resetSession()], [closePersistentQuery(_reason)] *)
Definition resetSession : W unit :=
  assign (set_currentSessionId None) ;;;
  service (OpencodeService.setSessionId None).

Definition closePersistentQuery (_reason : string) : W unit := resetSession.

(** [this.currentSessionId === sessionId] *)
Definition isCurrent (a : Adapter) (sessionId_ : string) : bool :=
  match currentSessionId a with
  | Some cur => String.eqb cur sessionId_
  | None => false
  end.

(** [deleteSession(sessionId)] *)
Definition deleteSession (sessionId_ : string) : W bool :=
  deleted <- service (OpencodeService.deleteSession sessionId_) ;;
  a <- me ;;
  (if deleted && isCurrent a sessionId_
   then assign (set_currentSessionId None)
   else ret tt) ;;;
  ret deleted.

(** [cleanup()] *)
Definition cleanup : W unit :=
  service OpencodeService.cleanup ;;;
  assign (set_currentSessionId None) ;;;
  assign (set_approvalCallback None).

(** [getBackendType()] *)
Definition getBackendType : string := "opencode".

(** [initialize()] *)
Definition initialize
  (sdk : outcome (OpencodeService.Client remote unknown)) : W bool :=
  service (OpencodeService.initialize sdk).

(** [setApprovalCallback(callback)] and [setVaultPath(path)] *)
Definition setApprovalCallback (c : option callback) : W unit :=
  assign (set_approvalCallback c).

Definition setVaultPath (path : string) : W unit :=
  assign (fun a =>
            {| approvalCallback := approvalCallback a;
               currentSessionId := currentSessionId a;
               vaultPath := Some path |}).

(** The element built by [providers.map] in [getProviders]. *)
Definition providerInfo (p : OpencodeProvider) : ProviderInfo :=
  {| infoId := id p;
     infoName := providerName p;
     infoApi := api p;
     infoEnv := env p;
     infoModels := [];
     infoNpm := npm p |}.

(** [getProviders()].  The service's [getProviders] handles its own
    exceptions, so the [catch] clause has nothing to receive. *)
Definition getProviders : W ProvidersResult :=
  ps <- service OpencodeService.getProviders ;;
  ret {| providers := map providerInfo ps; default := [] |}.

(** The element built by [models.map] in [getModels]. *)
Definition selectorItem (m : OpencodeModel) : ModelSelectorItem :=
  {| itemValue := value m;
     itemLabel := label m;
     itemDescription := description m;
     itemProvider := modelProvider m;
     itemModelId := modelId m;
     itemReasoning := modelReasoning m;
     itemTemperature := modelTemperature m |}.

Variable toLocaleString : Z -> string.

(** [getModels()] *)
Definition getModels : W (list ModelSelectorItem) :=
  ms <- service (OpencodeService.getModels toLocaleString) ;;
  ret (map selectorItem ms).

(** The compatibility methods: [consumeSessionInvalidation()],
    [loadCCPermissions()], [preWarm(...)], [reloadMcpServers()] and
    [restartPersistentQuery()] have empty bodies. *)
Definition consumeSessionInvalidation : W unit := ret tt.
Definition loadCCPermissions : W unit := ret tt.
Definition preWarm (_externalContextPaths
                    _persistentExternalContextPaths : option (list string))
  : W unit := ret tt.
Definition reloadMcpServers : W unit := ret tt.
Definition restartPersistentQuery : W unit := ret tt.

Variable numberToString : Z -> string.

(** [getServerUrl()] *)
Definition getServerUrl : W (option string) :=
  url <- service (OpencodeService.getServerUrl numberToString) ;;
  ret (Some url).

End Wrapper.

Arguments Adapter : clear implicits.
Arguments State : clear implicits.

End OpencodeServiceWrapper.

(** ** [IAgentService.ts]: the factory *)

Module AgentServiceFactory.

Inductive AgentBackend : Type :=
| ClaudeCode
| Opencode.

(** [AgentBackendConfig] *)
Record OpencodeSection : Type := {
  optHostname : option string;
  optPort : option Z;
  optTimeout : option Z
}.

Record AgentBackendConfig : Type := {
  backend : AgentBackend;
  opencode : option OpencodeSection;
  claudeCode : option (option string)
}.

Section Factory.

Context {remote unknown callback : Type}.

(** [new OpencodeService(config.opencode)] *)
Definition newService (section : option OpencodeSection)
  : OpencodeService.Service remote unknown :=
  match section with
  | Some o => OpencodeService.new (optHostname o) (optPort o) (optTimeout o)
  | None => OpencodeService.new None None None
  end.

(** [AgentServiceFactory.create(config)].  The new objects live in the
    surrounding process: [net] is the server as it is, [log] what has been
    sent so far.  The other backend is not adapted and throws. *)
Definition create (config : AgentBackendConfig) (net : remote)
  (log : list OpencodeService.Event)
  : outcome (OpencodeServiceWrapper.State remote unknown callback) :=
  match backend config with
  | Opencode =>
      Resolved
        (OpencodeServiceWrapper.new
           {| OpencodeService.svc := newService (opencode config);
              OpencodeService.net := net;
              OpencodeService.log := log |})
  | ClaudeCode =>
      Rejected
        (ErrorObject "Claude Code backend not yet adapted to IAgentService")
  end.

End Factory.

End AgentServiceFactory.

(** ** JavaScript strings as sequences of code units

    [migrationConstants.ts] and [opencodeCli.ts] trim, split and slice
    strings.  For these a string is the list of its UTF-16 code units, on
    which [trim], [split], [indexOf] and [slice] are defined as in
    ECMAScript. *)

Module Text.

Local Open Scope list_scope.

Definition code : Type := N.

Definition text : Type := list code.

(** An ASCII literal. *)
Definition lit (s : string) : text :=
  map N_of_ascii (list_ascii_of_string s).

Definition newline : code := 10%N.
Definition equals : code := 61%N.
Definition hash : code := 35%N.

(** [a === b] on strings. *)
Fixpoint eqb (a b : text) : bool :=
  match a, b with
  | [], [] => true
  | x :: a', y :: b' => N.eqb x y && eqb a' b'
  | _, _ => false
  end.

(** The code units [trim] removes: ECMAScript's WhiteSpace (TAB, VT, FF,
    SP, NBSP, ZWNBSP and the space separators) and LineTerminator (LF, CR,
    LS, PS). *)
Definition whitespace (c : code) : bool :=
  existsb (N.eqb c)
    [ 9; 10; 11; 12; 13; 32; 160; 5760;
      8192; 8193; 8194; 8195; 8196; 8197; 8198; 8199; 8200; 8201; 8202;
      8232; 8233; 8239; 8287; 12288; 65279 ]%N.

Fixpoint trimStart (s : text) : text :=
  match s with
  | [] => []
  | c :: rest => if whitespace c then trimStart rest else s
  end.

Fixpoint trimEnd (s : text) : text :=
  match s with
  | [] => []
  | c :: rest =>
      match trimEnd rest with
      | [] => if whitespace c then [] else [c]
      | kept => c :: kept
      end
  end.

(** [s.trim()] *)
Definition trim (s : text) : text := trimEnd (trimStart s).

(** [s.split(sep)] for a separator of one code unit. *)
Fixpoint split (sep : code) (s : text) : list text :=
  match s with
  | [] => [[]]
  | c :: rest =>
      if N.eqb c sep then [] :: split sep rest
      else match split sep rest with
           | [] => [[c]]
           | seg :: segs => (c :: seg) :: segs
           end
  end.

(** [lines.join(sep)] for a separator of one code unit. *)
Fixpoint join (sep : code) (lines : list text) : text :=
  match lines with
  | [] => []
  | [line] => line
  | line :: more => line ++ sep :: join sep more
  end.

(** [s.indexOf(c)]: the first position of the code unit, or [-1]. *)
Fixpoint indexOf (c : code) (s : text) : Z :=
  match s with
  | [] => (-1)%Z
  | d :: rest =>
      if N.eqb d c then 0%Z
      else match indexOf c rest with
           | Z.neg _ => (-1)%Z
           | i => (i + 1)%Z
           end
  end.

(** [s.slice(0, n)] and [s.slice(n)] for [0 <= n]. *)
Definition sliceTo (n : Z) (s : text) : text := firstn (Z.to_nat n) s.
Definition sliceFrom (n : Z) (s : text) : text := skipn (Z.to_nat n) s.

(** [s.startsWith(c)] for one code unit. *)
Definition startsWith (c : code) (s : text) : bool :=
  match s with
  | d :: _ => N.eqb d c
  | [] => false
  end.

(** [s.includes(c)] for one code unit. *)
Definition includes (c : code) (s : text) : bool := existsb (N.eqb c) s.

(** Truthiness: only the empty string is falsy. *)
Definition truthy (s : text) : bool :=
  match s with
  | [] => false
  | _ :: _ => true
  end.

End Text.

(** ** [migrationConstants.ts] *)

Module Migration.

Import Text.

Local Open Scope list_scope.

(** [CLAUDIAN_ONLY_FIELDS], [MIGRATABLE_CLAUDIAN_FIELDS] and
    [DEPRECATED_FIELDS], in the order of the source. *)
Definition CLAUDIAN_ONLY_FIELDS : list string :=
  [ "userName";
    "enableBlocklist"; "blockedCommands"; "permissionMode";
    "lastNonPlanPermissionMode";
    "model"; "thinkingBudget"; "enableAutoTitleGeneration";
    "titleGenerationModel";
    "excludedTags"; "mediaFolder"; "systemPrompt"; "allowedExportPaths";
    "persistentExternalContextPaths";
    "environmentVariables"; "envSnippets";
    "keyboardNavigation";
    "claudeCliPath"; "claudeCliPaths"; "loadUserClaudeSettings";
    "allowedContextPaths"; "showToolUse"; "toolCallExpandedByDefault";
    "enabledPlugins" ].

Definition MIGRATABLE_CLAUDIAN_FIELDS : list string :=
  [ "userName"; "enableBlocklist"; "blockedCommands"; "permissionMode";
    "lastNonPlanPermissionMode"; "model"; "thinkingBudget";
    "enableAutoTitleGeneration"; "titleGenerationModel"; "excludedTags";
    "mediaFolder"; "systemPrompt"; "allowedExportPaths";
    "persistentExternalContextPaths"; "environmentVariables"; "envSnippets";
    "env"; "keyboardNavigation"; "claudeCliPath"; "claudeCliPaths";
    "loadUserClaudeSettings"; "enabledPlugins" ].

Definition DEPRECATED_FIELDS : list string :=
  [ "allowedContextPaths"; "showToolUse"; "toolCallExpandedByDefault" ].

(** [set.has(field)] *)
Definition has (set : list string) (field : string) : bool :=
  existsb (String.eqb field) set.

(** A property value of the [env] object: the code keeps the strings. *)
Inductive value : Type :=
| Str (s : text)
| NotAString.

(** [`${key}=${value}`] *)
Definition assignment (key val : text) : text := key ++ equals :: val.

(** The [filter] and [map] of [convertEnvObjectToString]. *)
Fixpoint assignments (entries : list (text * value)) : list text :=
  match entries with
  | [] => []
  | (key, Str val) :: rest => assignment key val :: assignments rest
  | (_, NotAString) :: rest => assignments rest
  end.

(** [convertEnvObjectToString(env)]; [env] is the object in
    [Object.entries] order, or [undefined]. *)
Definition convertEnvObjectToString (env : option (list (text * value)))
  : text :=
  match env with
  | None => []
  | Some entries => join newline (assignments entries)
  end.

(** A [Map<string, string>] in insertion order; [map.set(key, val)]
    replaces the value of a key that is there and appends a new key. *)
Definition envMap : Type := list (text * text).

Fixpoint set (key val : text) (m : envMap) : envMap :=
  match m with
  | [] => [(key, val)]
  | (k, v) :: rest =>
      if eqb k key then (k, val) :: rest else (k, v) :: set key val rest
  end.

(** [map.get(key)] *)
Fixpoint get (key : text) (m : envMap) : option text :=
  match m with
  | [] => None
  | (k, v) :: rest => if eqb k key then Some v else get key rest
  end.

(** The body of the two [for] loops: what one line contributes. *)
Definition parseLine (line : text) : option (text * text) :=
  let trimmed := trim line in
  if negb (truthy trimmed) || startsWith hash trimmed then None
  else
    let eqIndex := indexOf equals trimmed in
    if (0 <? eqIndex)%Z
    then Some (sliceTo eqIndex trimmed, sliceFrom (eqIndex + 1) trimmed)
    else None.

Definition step (m : envMap) (line : text) : envMap :=
  match parseLine line with
  | Some (key, val) => set key val m
  | None => m
  end.

(** One [for (const line of s.split('\n'))] loop. *)
Definition absorb (m : envMap) (s : text) : envMap :=
  fold_left step (split newline s) m.

(** [Array.from(envMap.entries()).map(...).join('\n')] *)
Definition render (m : envMap) : text :=
  join newline (map (fun entry => assignment (fst entry) (snd entry)) m).

(** [mergeEnvironmentVariables(existing, additional)] *)
Definition mergeEnvironmentVariables (existing additional : text) : text :=
  render (absorb (absorb [] existing) additional).

End Migration.

(** ** [opencodeCli.ts] *)

Module OpencodeCli.

Import Text.

Local Open Scope list_scope.

(** The machine the resolver runs on: the platform, [os.hostname()],
    [os.homedir()], the environment variables it reads, the file system
    ([fs.existsSync]; [fs.statSync(p).isFile()] and [fs.readdirSync(p,
    {withFileTypes: true})], which are [None] when they throw) and [path]. *)
Record Host : Type := {
  isWindows : bool;
  hostname : text;
  homedir : text;
  PATH : option text;
  LOCALAPPDATA : option text;
  APPDATA : option text;
  existsSync : text -> bool;
  isFile : text -> option bool;
  readdirSync : text -> option (list (text * bool));
  join : list text -> text;
  dirname : text -> text
}.

(** [ResolvedCliPaths] *)
Record ResolvedCliPaths : Type := {
  opencodeCliPath : option text;
  serverUrl : option text
}.

(** Truthiness of a [string | null]. *)
Definition present (p : option text) : bool :=
  match p with
  | Some s => truthy s
  | None => false
  end.

(** The settings object [perHostPaths] is a plain object: the list holds
    its own properties.  [lookup] finds the own property [key]. *)
Fixpoint lookup (key : text) (table : list (text * text)) : option text :=
  match table with
  | [] => None
  | (k, v) :: rest => if eqb k key then Some v else lookup key rest
  end.

(** The property names every plain object inherits from
    [Object.prototype]. *)
Definition inheritedNames : list text :=
  map lit
    [ "constructor"; "__defineGetter__"; "__defineSetter__";
      "hasOwnProperty"; "__lookupGetter__"; "__lookupSetter__";
      "isPrototypeOf"; "propertyIsEnumerable"; "toString"; "valueOf";
      "__proto__"; "toLocaleString" ]%string.

(** What the property read [table[key]] gives: the string of an own
    property, a member inherited from [Object.prototype] (a function, or
    the prototype itself for [__proto__]), or [undefined]. *)
Inductive property : Type :=
| Own (v : text)
| Inherited
| Missing.

(** [perHostPaths[hostname]]: an own property first, then the prototype
    chain, which for a plain object is [Object.prototype] alone. *)
Definition read (key : text) (table : list (text * text)) : property :=
  match lookup key table with
  | Some v => Own v
  | None => if existsb (eqb key) inheritedNames then Inherited else Missing
  end.

Section Resolver.

Variable h : Host.

(** [this.exeExtension] and [`opencode${this.exeExtension}`] *)
Definition exeExtension : text :=
  if isWindows h then lit ".exe" else [].

Definition executable : text := lit "opencode" ++ exeExtension.

(** The loop of [autoDetectFromPath] over the directories of [PATH]. *)
Fixpoint firstInPath (dirs : list text) : option text :=
  match dirs with
  | [] => None
  | dir :: rest =>
      if negb (truthy dir) then firstInPath rest
      else
        let opencodePath := join h [dir; executable] in
        if existsSync h opencodePath then
          match isFile h opencodePath with
          | Some true => Some opencodePath
          | _ => firstInPath rest
          end
        else firstInPath rest
  end.

(** [autoDetectFromPath()] *)
Definition autoDetectFromPath : option text :=
  let pathEnv :=
    match PATH h with
    | Some p => if truthy p then p else []
    | None => []
    end in
  let pathSeparator := if isWindows h then 59%N else 58%N in
  firstInPath (split pathSeparator pathEnv).

(** The loop of [expandGlob] over the directory entries. *)
Fixpoint matchesIn (parentDir suffix : text) (entries : list (text * bool))
  : list text :=
  match entries with
  | [] => []
  | (name, isDirectory) :: rest =>
      if isDirectory then
        let fullPath := join h [parentDir; name; suffix] in
        if existsSync h fullPath
        then fullPath :: matchesIn parentDir suffix rest
        else matchesIn parentDir suffix rest
      else matchesIn parentDir suffix rest
  end.

(** [expandGlob(pattern)] *)
Definition expandGlob (pattern : text) : list text :=
  match split 42%N pattern with
  | [prefix; suffix] =>
      let parentDir := dirname h prefix in
      if negb (existsSync h parentDir) then []
      else
        match readdirSync h parentDir with
        | Some entries => matchesIn parentDir suffix entries
        | None => []
        end
  | _ => [pattern]
  end.

(** The list [commonLocations]. *)
Definition commonLocations : list text :=
  if isWindows h then
    (match LOCALAPPDATA h with
     | Some d =>
         if truthy d
         then [join h [d; lit "opencode"; lit "bin"; executable]]
         else []
     | None => []
     end)
    ++ (match APPDATA h with
        | Some d =>
            if truthy d then [join h [d; lit "opencode"; executable]] else []
        | None => []
        end)
    ++ [ join h [homedir h; lit "AppData"; lit "Local"; lit "opencode";
                 lit "bin"; executable];
         join h [homedir h; lit "AppData"; lit "Roaming"; lit "opencode";
                 executable] ]
  else
    [ join h [homedir h; lit ".local"; lit "bin"; lit "opencode"];
      join h [homedir h; lit ".cargo"; lit "bin"; lit "opencode"];
      join h [homedir h; lit ".nvm"; lit "versions"; lit "node"; lit "*";
              lit "bin"; lit "opencode"];
      lit "/usr/local/bin/opencode";
      lit "/usr/bin/opencode";
      lit "/opt/homebrew/bin/opencode" ].

(** The inner loop over the expansions of one pattern. *)
Fixpoint firstExisting (candidates : list text) : option text :=
  match candidates with
  | [] => None
  | candidate :: rest =>
      if existsSync h candidate then Some candidate else firstExisting rest
  end.

(** The loop of [checkCommonLocations] over the locations. *)
Fixpoint firstCommon (locations : list text) : option text :=
  match locations with
  | [] => None
  | location :: rest =>
      if includes 42%N location then
        match firstExisting (expandGlob location) with
        | Some expanded => Some expanded
        | None => firstCommon rest
        end
      else if existsSync h location then Some location
      else firstCommon rest
  end.

(** [checkCommonLocations()] *)
Definition checkCommonLocations : option text := firstCommon commonLocations.

(** [resolve] once [perHostPaths[hostname]?.trim() ?? null] has its
    value. *)
Definition resolveFrom (fromHost : option text) (legacyPath : text)
  : ResolvedCliPaths :=
  let fromLegacy :=
    if present fromHost then fromHost
    else if truthy (trim legacyPath) then Some (trim legacyPath) else None in
  let fromPath :=
    if present fromLegacy then fromLegacy else autoDetectFromPath in
  let cliPath :=
    if present fromPath then fromPath else checkCommonLocations in
  {| opencodeCliPath := cliPath;
     serverUrl :=
       if present cliPath then Some (lit "http://127.0.0.1:4096") else None |}.

(** [resolve(perHostPaths, legacyPath, envVars)].  An inherited member is
    neither [null] nor [undefined] and has no [trim]: the call
    [perHostPaths[hostname]?.trim()] throws a [TypeError], and so does
    [resolve], which is [None] here. *)
Definition resolve (perHostPaths : list (text * text))
  (legacyPath envVars : text) : option ResolvedCliPaths :=
  match read (hostname h) perHostPaths with
  | Own v => Some (resolveFrom (Some (trim v)) legacyPath)
  | Missing => Some (resolveFrom None legacyPath)
  | Inherited => None
  end.

(** [isInstalled(cliPath)] *)
Definition isInstalled (cliPath : option text) : bool :=
  if present cliPath
  then match cliPath with
       | Some p => existsSync h p
       | None => false
       end
  else false.

End Resolver.

(** [getDefaultPort()] and [getDefaultHostname()] *)
Definition getDefaultPort : Z := 4096.
Definition getDefaultHostname : text := lit "127.0.0.1".

End OpencodeCli.

(** * Vocabulary of the properties *)

Module Spec.

Import OpencodeService.

(** A colon-free identifier. *)
Definition colonFree (s : string) : Prop := includes colon s = false.

(** The chunks the streaming contract asks for, part by part: a thinking
    delta for a reasoning part with non-empty text, a text delta for a text
    part with non-empty text, nothing otherwise. *)
Definition expectedFor (part : ResponsePart) : option OpencodeStreamChunk :=
  match partText part with
  | Some "" => None
  | Some t =>
      if String.eqb (partType part) "reasoning" then Some (chunk "thinking" (Some t))
      else if String.eqb (partType part) "text" then Some (chunk "text" (Some t))
      else None
  | None => None
  end.

Fixpoint expected (ps : list ResponsePart) : list OpencodeStreamChunk :=
  match ps with
  | [] => []
  | part :: rest =>
      match expectedFor part with
      | Some c => c :: expected rest
      | None => expected rest
      end
  end.

(** A terminal marker: a chunk of type [done] or [error]. *)
Definition terminal (c : OpencodeStreamChunk) : bool :=
  String.eqb (type c) "done" || String.eqb (type c) "error".

(** Exactly one terminal marker, in last position. *)
Definition closed (cs : list OpencodeStreamChunk) : Prop :=
  exists body last,
    cs = (body ++ [last])%list /\ terminal last = true /\
    forallb (fun c => negb (terminal c)) body = true.

(** The text before the first colon, and what follows that colon. *)
Fixpoint beforeColon (s : string) : string :=
  match s with
  | EmptyString => EmptyString
  | String c rest =>
      if Ascii.eqb c colon then EmptyString else String c (beforeColon rest)
  end.

Fixpoint afterColon (s : string) : option string :=
  match s with
  | EmptyString => None
  | String c rest => if Ascii.eqb c colon then Some rest else afterColon rest
  end.

(** The events of a streaming query: entering the service's [query], and
    the prompt request. *)
Definition queryEvent (e : Event) : bool :=
  match e with
  | QueryEntered _ | SessionPrompt _ _ => true
  | _ => false
  end.

(** A malformed model key: no colon at all, nothing before the first colon,
    or nothing between the first colon and the next colon or the end. *)
Definition malformed (key : string) : bool :=
  match afterColon key with
  | None => true
  | Some rest =>
      negb (truthy_string (beforeColon key))
      || negb (truthy_string (beforeColon rest))
  end.

(** The same options with the model key left out. *)
Definition withoutModel (o : OpencodeQueryOptions) : OpencodeQueryOptions :=
  {| model := None;
     provider := provider o;
     allowedTools := allowedTools o;
     sessionId := sessionId o;
     externalContextPaths := externalContextPaths o;
     mcpServers := mcpServers o;
     images := images o |}.

Section Harness.

Context {remote unknown : Type}.
Variable toLocaleString : Z -> string.

(** The session a query is addressed to:
    [options?.sessionId ?? this.currentSessionId]. *)
Definition target (options : option OpencodeQueryOptions)
  (w : World remote unknown) : option string :=
  nullish_opt (optSessionId options) (currentSessionId (svc w)).

(** The public methods of the service other than [clearCache], as calls a
    client of the class can make between two calls of [getModels]. *)
Inductive Call : Type :=
| Initialize (sdk : outcome (Client remote unknown))
| HealthCheck
| GetProviders
| GetModels
| CreateSession (title : option string)
| GetSession (sessionId_ : string)
| ListSessions
| DeleteSession (sessionId_ : string)
| Query (prompt : string) (options : option OpencodeQueryOptions)
| GetMessages (sessionId_ : string)
| ShareSession (sessionId_ : string)
| Abort
| SetSessionId (i : option string)
| GetSessionId
| Cleanup.

(** A remote method that cannot answer in the world [w]: there is no
    client, the client lacks the method, or the request is rejected. *)
Definition unavailable {A : Type}
  (method : Client remote unknown -> option (endpoint (remote := remote) A))
  (w : World remote unknown) : Prop :=
  match client (svc w) with
  | None => True
  | Some c =>
      match method c with
      | None => True
      | Some f => exists e, fst (f (net w)) = Rejected e
      end
  end.

(** A remote method applied to its argument. *)
Definition applied {A B : Type}
  (method : Client remote unknown -> option (B -> endpoint (remote := remote) A))
  (b : B) : Client remote unknown -> option (endpoint (remote := remote) A) :=
  fun c => option_map (fun g => g b) (method c).

Definition forget {A : Type} (m : M (remote := remote) (unknown := unknown) A)
  : M unit :=
  bind m (fun _ => ret tt).

Definition run (k : Call) : M (remote := remote) (unknown := unknown) unit :=
  match k with
  | Initialize sdk => forget (initialize sdk)
  | HealthCheck => forget healthCheck
  | GetProviders => forget getProviders
  | GetModels => forget (getModels toLocaleString)
  | CreateSession title => forget (createSession title)
  | GetSession i => forget (getSession i)
  | ListSessions => forget listSessions
  | DeleteSession i => forget (deleteSession i)
  | Query prompt options => forget (query prompt options)
  | GetMessages i => forget (getMessages i)
  | ShareSession i => forget (shareSession i)
  | Abort => abort
  | SetSessionId i => setSessionId i
  | GetSessionId => forget getSessionId
  | Cleanup => cleanup
  end.

Fixpoint runAll (ks : list Call) : M (remote := remote) (unknown := unknown) unit :=
  match ks with
  | [] => ret tt
  | k :: rest => bind (run k) (fun _ => runAll rest)
  end.

End Harness.

End Spec.

(** * A concrete backend

    A server whose state counts the requests it has received.  It knows one
    provider with one model, answers every prompt with a reasoning part
    followed by a text part, and has no endpoint for fetching one session. *)

Module Demo.

Import OpencodeService.

Definition locale (n : Z) : string := "200,000".

Definition claude : OpencodeModelInfo :=
  {| name := "Claude";
     capabilities_reasoning := Some true;
     reasoning := None;
     temperature := true;
     cost := None;
     limit := Some {| context := Some 200000%Z; output := None |} |}.

Definition anthropic : OpencodeProvider :=
  {| api := None;
     providerName := "Anthropic";
     env := [];
     id := "anthropic";
     npm := None;
     models := [("claude", claude)] |}.

Definition answer : PromptResponse :=
  {| responseParts :=
       Some [ {| partType := "reasoning"; partText := Some "t1" |};
              {| partType := "text"; partText := Some "answer" |} ] |}.

Definition counted {A : Type} (a : A) : endpoint (remote := nat) A :=
  fun n => (Resolved a, S n).

Definition server : Client nat unit :=
  {| global_health := Some (counted true);
     config_providers := Some (counted [anthropic]);
     session_create := Some (fun _ => counted "s1");
     session_get := None;
     session_list := Some (counted [tt]);
     session_delete := Some (fun _ => counted true);
     session_prompt := Some (fun _ _ => counted answer);
     session_messages := Some (fun _ => counted [tt; tt]);
     session_share := Some (fun _ => counted "share-1");
     session_abort := Some (fun _ => counted true) |}.

(** A server on which every request fails. *)
Definition failing {A : Type} (message : string) : endpoint (remote := nat) A :=
  fun n => (Rejected (ErrorObject message), S n).

Definition broken : Client nat unit :=
  {| global_health := Some (failing "down");
     config_providers := Some (failing "down");
     session_create := Some (fun _ => failing "down");
     session_get := Some (fun _ => failing "down");
     session_list := Some (failing "down");
     session_delete := Some (fun _ => failing "down");
     session_prompt := Some (fun _ _ => failing "boom");
     session_messages := Some (fun _ => failing "down");
     session_share := Some (fun _ => failing "down");
     session_abort := Some (fun _ => failing "down") |}.

(** A service just constructed. *)
Definition fresh : World nat unit :=
  {| svc := new None None None; net := 0; log := [] |}.

(** After [initialize()] against the working server. *)
Definition connected : World nat unit :=
  snd (initialize (Resolved server) fresh).

(** After [initialize()] and [createSession()]: session [s1] is bound. *)
Definition bound : World nat unit :=
  snd (createSession None connected).

(** After [initialize()] against the failing server, with a session id
    bound by [setSessionId]. *)
Definition stranded : World nat unit :=
  snd (setSessionId (Some "s1") (snd (initialize (Resolved broken) fresh))).

(** Adapters.  [unbound] wraps the fresh service; [detached] has session
    [s1] bound while its service has no client; [failingAdapter] has
    session [s1] bound on the failing server; [workingAdapter] has created
    its session on the working server. *)
Definition unbound : OpencodeServiceWrapper.State nat unit unit :=
  OpencodeServiceWrapper.new fresh.

Definition detached : OpencodeServiceWrapper.State nat unit unit :=
  snd (OpencodeServiceWrapper.setSessionId (Some "s1") unbound).

Definition failingAdapter : OpencodeServiceWrapper.State nat unit unit :=
  snd (OpencodeServiceWrapper.setSessionId (Some "s1")
         (OpencodeServiceWrapper.new
            (snd (initialize (Resolved broken) fresh)))).

Definition workingAdapter : OpencodeServiceWrapper.State nat unit unit :=
  snd (OpencodeServiceWrapper.createSession None
         (OpencodeServiceWrapper.new connected)).

End Demo.

(** * Further vocabulary: requests, adapter streams, bindings *)

Module Notions.

Import OpencodeService.

(** A request that reaches the server (as opposed to the local abort
    signal, console output and the entry marker of [query]). *)
Definition remoteEvent (e : Event) : bool :=
  match e with
  | AbortSignal | ConsoleError _ | QueryEntered _ => false
  | _ => true
  end.

(** The calls that install a client. *)
Definition installs {remote unknown : Type}
  (k : Spec.Call (remote := remote) (unknown := unknown)) : bool :=
  match k with
  | Spec.Initialize _ => true
  | _ => false
  end.

(** A terminal chunk of the adapter's stream. *)
Definition terminalChunk (c : OpencodeServiceWrapper.StreamChunk) : bool :=
  match c with
  | OpencodeServiceWrapper.Done | OpencodeServiceWrapper.Error _ => true
  | _ => false
  end.

(** Exactly one terminal chunk, in last position. *)
Definition closedStream (cs : list OpencodeServiceWrapper.StreamChunk)
  : Prop :=
  exists body last,
    cs = (body ++ [last])%list /\ terminalChunk last = true /\
    forallb (fun c => negb (terminalChunk c)) body = true.

(** What the user is shown for one response part: the thinking block for a
    reasoning part with text, the text for a text part with text. *)
Definition surfaced (part : ResponsePart)
  : list OpencodeServiceWrapper.StreamChunk :=
  match partText part with
  | Some "" => []
  | Some t =>
      if String.eqb (partType part) "reasoning"
      then [OpencodeServiceWrapper.Thinking t]
      else if String.eqb (partType part) "text"
      then [OpencodeServiceWrapper.Text t]
      else []
  | None => []
  end.

(** The adapter and its service agree on the bound session. *)
Definition inSync {remote unknown callback : Type}
  (st : OpencodeServiceWrapper.State remote unknown callback) : Prop :=
  OpencodeServiceWrapper.currentSessionId (OpencodeServiceWrapper.self st)
  = currentSessionId (svc (OpencodeServiceWrapper.opencodeService st)).


Section Methods.

Context {remote unknown : Type}.
Variables toLocaleString numberToString : Z -> string.

(** Every public method of [OpencodeService]: the calls of [Spec.Call],
    [clearCache()] and [getServerUrl()]. *)
Inductive Method : Type :=
| Listed (k : Spec.Call (remote := remote) (unknown := unknown))
| ClearCache
| GetServerUrl.

Definition perform (m : Method)
  : M (remote := remote) (unknown := unknown) unit :=
  match m with
  | Listed k => Spec.run toLocaleString k
  | ClearCache => clearCache
  | GetServerUrl => Spec.forget (getServerUrl numberToString)
  end.

Fixpoint performAll (ms : list Method)
  : M (remote := remote) (unknown := unknown) unit :=
  match ms with
  | [] => ret tt
  | m :: rest => bind (perform m) (fun _ => performAll rest)
  end.

(** The method is [initialize()]. *)
Definition initializes (m : Method) : bool :=
  match m with
  | Listed k => installs k
  | _ => false
  end.

End Methods.

Section Actions.

Context {remote unknown callback : Type}.
Variable toLocaleString : Z -> string.

(** The state-changing and remote methods of the adapter, as calls a user
    of [IAgentService] can make. *)
Inductive Action : Type :=
| DoInitialize (sdk : outcome (Client remote unknown))
| DoHealthCheck
| DoSetApprovalCallback (c : option callback)
| DoSetVaultPath (path : string)
| DoCreateSession (title : option string)
| DoSetSessionId (i : option string)
| DoQuery (prompt : string) (images_ : option (list string))
    (history : option (list string))
    (queryOptions : option OpencodeServiceWrapper.AgentQueryOptions)
| DoAbort
| DoResetSession
| DoGetProviders
| DoGetModels
| DoGetMessages (sessionId_ : string)
| DoListSessions
| DoDeleteSession (sessionId_ : string)
| DoCleanup.

Definition discard {A : Type}
  (m : OpencodeServiceWrapper.W (remote := remote) (unknown := unknown)
         (callback := callback) A)
  : OpencodeServiceWrapper.W (remote := remote) (unknown := unknown)
      (callback := callback) unit :=
  bind m (fun _ => ret tt).

Definition act (a : Action)
  : OpencodeServiceWrapper.W (remote := remote) (unknown := unknown)
      (callback := callback) unit :=
  match a with
  | DoInitialize sdk => discard (OpencodeServiceWrapper.initialize sdk)
  | DoHealthCheck => discard OpencodeServiceWrapper.healthCheck
  | DoSetApprovalCallback c => OpencodeServiceWrapper.setApprovalCallback c
  | DoSetVaultPath path => OpencodeServiceWrapper.setVaultPath path
  | DoCreateSession title =>
      discard (OpencodeServiceWrapper.createSession title)
  | DoSetSessionId i => OpencodeServiceWrapper.setSessionId i
  | DoQuery prompt images_ history queryOptions =>
      discard (OpencodeServiceWrapper.query prompt images_ history queryOptions)
  | DoAbort => OpencodeServiceWrapper.abort
  | DoResetSession => OpencodeServiceWrapper.resetSession
  | DoGetProviders => discard OpencodeServiceWrapper.getProviders
  | DoGetModels => discard (OpencodeServiceWrapper.getModels toLocaleString)
  | DoGetMessages i => discard (OpencodeServiceWrapper.getMessages i)
  | DoListSessions => discard OpencodeServiceWrapper.listSessions
  | DoDeleteSession i => discard (OpencodeServiceWrapper.deleteSession i)
  | DoCleanup => OpencodeServiceWrapper.cleanup
  end.

(** The action makes the service create a session, and the server answers
    with the empty string as its id. *)
Definition issuesEmptyId (a : Action)
  (st : OpencodeServiceWrapper.State remote unknown callback) : Prop :=
  match a with
  | DoCreateSession title =>
      fst (createSession title (OpencodeServiceWrapper.opencodeService st))
      = Some ""
  | DoQuery _ _ _ _ =>
      truthy (OpencodeServiceWrapper.currentSessionId
                (OpencodeServiceWrapper.self st)) = false
      /\ fst (createSession None (OpencodeServiceWrapper.opencodeService st))
         = Some ""
  | _ => False
  end.

Variable numberToString : Z -> string.

(** Every public method of [OpencodeServiceWrapper]: the actions above,
    the three getters and the compatibility methods. *)
Inductive Invocation : Type :=
| Acting (a : Action)
| DoGetBackendType
| DoGetSessionId
| DoGetServerUrl
| DoCancel
| DoConsumeSessionInvalidation
| DoLoadCCPermissions
| DoPreWarm (externalContextPaths
             persistentExternalContextPaths : option (list string))
| DoClosePersistentQuery (reason : string)
| DoReloadMcpServers
| DoRestartPersistentQuery.

Definition invoke (i : Invocation)
  : OpencodeServiceWrapper.W (remote := remote) (unknown := unknown)
      (callback := callback) unit :=
  match i with
  | Acting a => act a
  | DoGetBackendType =>
      let _ := OpencodeServiceWrapper.getBackendType in ret tt
  | DoGetSessionId => discard OpencodeServiceWrapper.getSessionId
  | DoGetServerUrl =>
      discard (OpencodeServiceWrapper.getServerUrl numberToString)
  | DoCancel => OpencodeServiceWrapper.cancel
  | DoConsumeSessionInvalidation =>
      OpencodeServiceWrapper.consumeSessionInvalidation
  | DoLoadCCPermissions => OpencodeServiceWrapper.loadCCPermissions
  | DoPreWarm a b => OpencodeServiceWrapper.preWarm a b
  | DoClosePersistentQuery reason =>
      OpencodeServiceWrapper.closePersistentQuery reason
  | DoReloadMcpServers => OpencodeServiceWrapper.reloadMcpServers
  | DoRestartPersistentQuery => OpencodeServiceWrapper.restartPersistentQuery
  end.

Fixpoint invokeAll (calls : list Invocation)
  : OpencodeServiceWrapper.W (remote := remote) (unknown := unknown)
      (callback := callback) unit :=
  match calls with
  | [] => ret tt
  | i :: rest => bind (invoke i) (fun _ => invokeAll rest)
  end.

(** The invocation is an [initialize()] that succeeds. *)
Definition connects (i : Invocation) : bool :=
  match i with
  | Acting (DoInitialize (Resolved _)) => true
  | _ => false
  end.

End Actions.

End Notions.

(** * Vocabulary for environment strings *)

Module EnvNotions.

Import Text Migration.

Local Open Scope list_scope.

(** The value an environment string gives to a key, as the merge reads
    it: the last assignment of the key wins. *)
Definition valueOf (key : text) (s : text) : option text :=
  get key (absorb [] s).

(** The key of an assignment line: what precedes its first [=]. *)
Definition keyOfLine (line : text) : text :=
  sliceTo (indexOf equals line) line.

(** A line that stands for the assignment of [val] to [key]: it contains
    no line break, trimming leaves it alone, and it is read back as that
    assignment. *)
Definition stable (entry : text * text) : Prop :=
  includes newline (assignment (fst entry) (snd entry)) = false
  /\ parseLine (assignment (fst entry) (snd entry)) = Some entry.

(** A map whose keys are distinct and whose entries are stable. *)
Definition tidy (m : envMap) : Prop :=
  NoDup (map fst m) /\ Forall stable m.

(** An entry that can be written on one line as it is: the key is not
    empty, has no [=] and does not start a comment, neither part has a
    line break, and the line has no white space at either end. *)
Definition plain (entry : text * text) : bool :=
  truthy (fst entry)
  && negb (includes equals (fst entry))
  && negb (startsWith hash (fst entry))
  && negb (includes newline (assignment (fst entry) (snd entry)))
  && eqb (trim (assignment (fst entry) (snd entry)))
         (assignment (fst entry) (snd entry)).

(** The string entries of an [env] object. *)
Fixpoint strings (entries : list (text * value)) : envMap :=
  match entries with
  | [] => []
  | (key, Str val) :: rest => (key, val) :: strings rest
  | (_, NotAString) :: rest => strings rest
  end.

End EnvNotions.

(** * Vocabulary for the CLI resolver *)

Module CliNotions.

Import Text OpencodeCli.

(** The candidate executable in a directory of [PATH], and whether it can
    be used: the directory name is not empty and the candidate exists and
    is a regular file. *)
Definition candidate (h : Host) (dir : text) : text :=
  join h [dir; executable h].

Definition usable (h : Host) (dir : text) : bool :=
  truthy dir
  && existsSync h (candidate h dir)
  && match isFile h (candidate h dir) with
     | Some true => true
     | _ => false
     end.

(** The directories listed in [PATH]. *)
Definition pathDirs (h : Host) : list text :=
  split (if isWindows h then 59%N else 58%N)
        (match PATH h with
         | Some p => if truthy p then p else []
         | None => []
         end).

(** Neither setting names a path. *)
Definition unconfigured (h : Host) (perHostPaths : list (text * text))
  (legacyPath : text) : bool :=
  negb (present (option_map trim (lookup (hostname h) perHostPaths)))
  && negb (truthy (trim legacyPath)).

End CliNotions.

(** * Further concrete cases *)

Module Cases.

Import Text.

Local Open Scope list_scope.

(** A server that answers a session creation with the empty id. *)
Definition anonymous : OpencodeService.Client nat unit :=
  {| OpencodeService.global_health := Some (Demo.counted true);
     OpencodeService.config_providers := None;
     OpencodeService.session_create := Some (fun _ => Demo.counted "");
     OpencodeService.session_get := None;
     OpencodeService.session_list := None;
     OpencodeService.session_delete := None;
     OpencodeService.session_prompt := Some (fun _ _ => Demo.counted Demo.answer);
     OpencodeService.session_messages := None;
     OpencodeService.session_share := None;
     OpencodeService.session_abort := None |}.

Definition anonymousAdapter : OpencodeServiceWrapper.State nat unit unit :=
  OpencodeServiceWrapper.new
    (snd (OpencodeService.initialize (Resolved anonymous) Demo.fresh)).

(** An adapter over the working server, before any session. *)
Definition idleAdapter : OpencodeServiceWrapper.State nat unit unit :=
  OpencodeServiceWrapper.new Demo.connected.

(** Two environment strings and an [env] object. *)
Definition existingEnv : text :=
  lit "A=1" ++ newline :: lit "# note" ++ newline :: lit " B = 2 "
  ++ newline :: lit "A=3".

Definition additionalEnv : text :=
  lit "C=4" ++ newline :: lit "=x" ++ newline :: lit "B =5".

Definition envObject : list (text * Migration.value) :=
  [ (lit "ANTHROPIC_API_KEY", Migration.Str (lit "xxx"));
    (lit "COUNT", Migration.NotAString);
    (lit "MY_VAR", Migration.Str (lit "a=b")) ].

(** A Unix machine with [opencode] in [/usr/bin] only; [path.join] puts a
    slash between its arguments. *)
Definition unix : OpencodeCli.Host :=
  {| OpencodeCli.isWindows := false;
     OpencodeCli.hostname := lit "laptop";
     OpencodeCli.homedir := lit "/home/me";
     OpencodeCli.PATH := Some (lit "/opt/bin::/usr/bin:/bin");
     OpencodeCli.LOCALAPPDATA := None;
     OpencodeCli.APPDATA := None;
     OpencodeCli.existsSync := fun p => eqb p (lit "/usr/bin/opencode");
     OpencodeCli.isFile := fun p => Some (eqb p (lit "/usr/bin/opencode"));
     OpencodeCli.readdirSync := fun _ => None;
     OpencodeCli.join := join 47%N;
     OpencodeCli.dirname := fun p => p |}.

(** The same machine under the host name [constructor]. *)
Definition oddlyNamed : OpencodeCli.Host :=
  {| OpencodeCli.isWindows := false;
     OpencodeCli.hostname := lit "constructor";
     OpencodeCli.homedir := OpencodeCli.homedir unix;
     OpencodeCli.PATH := OpencodeCli.PATH unix;
     OpencodeCli.LOCALAPPDATA := None;
     OpencodeCli.APPDATA := None;
     OpencodeCli.existsSync := OpencodeCli.existsSync unix;
     OpencodeCli.isFile := OpencodeCli.isFile unix;
     OpencodeCli.readdirSync := OpencodeCli.readdirSync unix;
     OpencodeCli.join := OpencodeCli.join unix;
     OpencodeCli.dirname := OpencodeCli.dirname unix |}.

(** The default port, printed. *)
Definition decimal (n : Z) : string := "4096".

(** A configuration that selects the [opencode] backend with defaults. *)
Definition defaults : AgentServiceFactory.AgentBackendConfig :=
  {| AgentServiceFactory.backend := AgentServiceFactory.Opencode;
     AgentServiceFactory.opencode := None;
     AgentServiceFactory.claudeCode := None |}.

(** A user who resumes a stored session before the adapter is connected,
    with an SDK that fails to load. *)
Definition resuming : list (Notions.Invocation (remote := nat)
                              (unknown := unit) (callback := unit)) :=
  [ Notions.Acting (Notions.DoInitialize (Rejected OtherValue));
    Notions.Acting (Notions.DoSetSessionId (Some "s1"));
    Notions.DoGetServerUrl;
    Notions.Acting Notions.DoGetModels;
    Notions.DoCancel ].

End Cases.

(** * Properties of [OpencodeService] *)

Section ServiceProperties.

Import OpencodeService Spec.

Context {remote unknown : Type}.
Variable toLocaleString : Z -> string.

Implicit Types (w : World remote unknown).

(** *** The normaliser *)

Lemma yieldPart_expected (part : ResponsePart) :
  yieldPart part =
  match expectedFor part with Some c => [c] | None => [] end.
Proof.
  unfold yieldPart, expectedFor.
  destruct (partText part) as [[|a t]|]; simpl;
    destruct (String.eqb (partType part) "reasoning");
    destruct (String.eqb (partType part) "text"); reflexivity.
Qed.

Lemma yieldParts_expected (ps : list ResponsePart) :
  yieldParts ps = expected ps.
Proof.
  induction ps as [|part rest IH]; simpl; [reflexivity|].
  rewrite yieldPart_expected, IH.
  destruct (expectedFor part); reflexivity.
Qed.

Lemma normalise_expected (ps : list ResponsePart) :
  normalise {| responseParts := Some ps |} = (expected ps ++ [doneChunk])%list.
Proof.
  unfold normalise; cbn [responseParts].
  destruct ps as [|part rest]; [reflexivity|].
  now rewrite yieldParts_expected.
Qed.

Lemma yieldPart_not_terminal (part : ResponsePart) :
  forallb (fun c => negb (terminal c)) (yieldPart part) = true.
Proof.
  unfold yieldPart.
  destruct (String.eqb (partType part) "reasoning" && truthy (partText part));
    [reflexivity|].
  destruct (String.eqb (partType part) "text" && truthy (partText part));
    reflexivity.
Qed.

Lemma yieldParts_not_terminal (ps : list ResponsePart) :
  forallb (fun c => negb (terminal c)) (yieldParts ps) = true.
Proof.
  induction ps as [|part rest IH]; simpl; [reflexivity|].
  now rewrite forallb_app, yieldPart_not_terminal, IH.
Qed.

Lemma closed_single (c : OpencodeStreamChunk) :
  terminal c = true -> closed [c].
Proof. intros H. exists [], c. repeat split; assumption. Qed.

Lemma normalise_closed (response : PromptResponse) : closed (normalise response).
Proof.
  unfold normalise.
  destruct (responseParts response) as [[|part rest]|];
    try (apply closed_single; reflexivity).
  exists (yieldParts (part :: rest)), doneChunk.
  split; [reflexivity|]. split; [reflexivity|].
  apply yieldParts_not_terminal.
Qed.

(** *** One run of [query] *)

(** Without a client the generator yields its first guard's error. *)
Lemma query_uninitialised prompt options w :
  client (svc w) = None ->
  query prompt options w =
  ([errorChunk "OpenCode client not initialized"],
   {| svc := svc w; net := net w; log := log w ++ [QueryEntered prompt] |}).
Proof.
  intros H. unfold query, bind, emit, this, ret; simpl. now rewrite H.
Qed.

Lemma query_no_session prompt options w c :
  client (svc w) = Some c ->
  truthy (target options w) = false ->
  query prompt options w =
  ([errorChunk "No session ID provided"],
   {| svc := svc w; net := net w; log := log w ++ [QueryEntered prompt] |}).
Proof.
  intros H T. unfold query, bind, emit, this, ret; simpl. rewrite H.
  unfold target in T. now rewrite T.
Qed.

Lemma query_no_prompt prompt options w c :
  client (svc w) = Some c ->
  truthy (target options w) = true ->
  session_prompt c = None ->
  query prompt options w =
  ([errorChunk "Session prompt method not available"],
   {| svc := svc w; net := net w; log := log w ++ [QueryEntered prompt] |}).
Proof.
  intros H T P. unfold query, bind, emit, this, ret; simpl. rewrite H.
  unfold target in T. now rewrite T, P.
Qed.

(** With a client, a session and the prompt method, exactly one request is
    sent; its settlement decides what is yielded, and the abort-controller
    slot is empty again at the end. *)
Lemma query_ready prompt options w c f :
  client (svc w) = Some c ->
  truthy (target options w) = true ->
  session_prompt c = Some f ->
  query prompt options w =
  let sid := nullish (target options w) "" in
  let body := promptBody prompt (optModel options) in
  (match fst (f sid body (net w)) with
   | Resolved response => normalise response
   | Rejected e => [errorChunk (error_message e)]
   end,
   {| svc := set_abortController None (svc w);
      net := snd (f sid body (net w));
      log := (log w ++ [QueryEntered prompt]) ++ [SessionPrompt sid body] |}).
Proof.
  intros H T P. unfold query, bind, emit, this, ret, update, await; simpl.
  rewrite H. unfold target in T. rewrite T, P. simpl.
  destruct (f _ _ (net w)) as [r n]. reflexivity.
Qed.

(** C3.  When the backend answers with the part list [ps], [query] yields
    the expected chunks of [ps] in the order of [ps] (a thinking delta for
    each reasoning part with non-empty text, a text delta for each text part
    with non-empty text, nothing for any other part) followed by the single
    [done] chunk.  In particular a reasoning part [t1] followed by a text
    part [answer] yields thinking, text, done, and an empty part list
    yields [done] alone. *)
Theorem query_yields_parts_in_order prompt options w c f ps n :
  client (svc w) = Some c ->
  truthy (target options w) = true ->
  session_prompt c = Some f ->
  f (nullish (target options w) "") (promptBody prompt (optModel options))
    (net w) = (Resolved {| responseParts := Some ps |}, n) ->
  fst (query prompt options w) = (expected ps ++ [doneChunk])%list
  /\ (ps = [ {| partType := "reasoning"; partText := Some "t1" |};
             {| partType := "text"; partText := Some "answer" |} ] ->
      fst (query prompt options w) =
      [ chunk "thinking" (Some "t1"); chunk "text" (Some "answer");
        chunk "done" None ])
  /\ (ps = [] -> fst (query prompt options w) = [ chunk "done" None ]).
Proof.
  intros H T P R.
  assert (Q : fst (query prompt options w) = (expected ps ++ [doneChunk])%list).
  { rewrite (query_ready prompt options w H T P). cbn zeta. rewrite R.
    cbn [fst]. apply normalise_expected. }
  split; [exact Q|]. split; intros ->; rewrite Q; reflexivity.
Qed.

(** C4.  Whatever the state and the backend's behaviour, the chunks yielded
    by one run of [query] contain exactly one terminal marker ([done] or
    [error]), and it is the last chunk. *)
Theorem query_closed_by_one_terminal prompt options w :
  closed (fst (query prompt options w)).
Proof.
  destruct (client (svc w)) as [c|] eqn:H.
  - destruct (truthy (target options w)) eqn:T.
    + destruct (session_prompt c) as [f|] eqn:P.
      * rewrite (query_ready prompt options w H T P). cbn zeta. cbn [fst].
        destruct (fst (f _ _ (net w))) as [response|e].
        -- apply normalise_closed.
        -- apply closed_single. reflexivity.
      * rewrite (query_no_prompt prompt options w H T P).
        apply closed_single. reflexivity.
    + rewrite (query_no_session prompt options w H T).
      apply closed_single. reflexivity.
  - rewrite (query_uninitialised prompt options w H).
    apply closed_single. reflexivity.
Qed.

(** *** Compound model keys *)

Lemma colonFree_cons a s :
  colonFree (String a s) -> Ascii.eqb a colon = false /\ colonFree s.
Proof. unfold colonFree; simpl. intros H. now apply orb_false_iff in H. Qed.

Lemma split_colonFree s : colonFree s -> split colon s = [s].
Proof.
  induction s as [|a s IH]; intros H; [reflexivity|].
  apply colonFree_cons in H as [Ha Hs]. simpl.
  now rewrite Ha, (IH Hs).
Qed.

Lemma split_compound p m :
  colonFree p -> split colon (compoundKey p m) = p :: split colon m.
Proof.
  unfold compoundKey. induction p as [|a p IH]; intros H; [reflexivity|].
  apply colonFree_cons in H as [Ha Hp]. simpl.
  rewrite Ha. simpl in IH. now rewrite (IH Hp).
Qed.

Lemma compoundKey_truthy p m : truthy_string (compoundKey p m) = true.
Proof. destruct p; reflexivity. Qed.

(** C6.  For a provider id and a model id without colon, the key built by
    [getModels] for the selector entry is the provider id, a colon and the
    model id, and splitting it as [query] does gives back exactly the two
    ids; the model selector sent to the backend is made of them (it is
    formed when neither is empty). *)
Theorem compound_key_round_trip (p : OpencodeProvider) (modelId_ : string)
  (info : OpencodeModelInfo) :
  colonFree (id p) -> colonFree modelId_ ->
  let key := value (selectorEntry toLocaleString p (modelId_, info)) in
  key = (id p ++ ":" ++ modelId_)%string
  /\ splitKey key = (Some (id p), Some modelId_)
  /\ modelBody (Some key) =
     if truthy_string (id p) && truthy_string modelId_
     then Some {| providerID := id p; modelID := modelId_ |}
     else None.
Proof.
  intros Hp Hm. cbn zeta. cbn [selectorEntry value].
  assert (S : splitKey (compoundKey (id p) modelId_)
              = (Some (id p), Some modelId_)).
  { unfold splitKey. rewrite (split_compound _ Hp), (split_colonFree Hm).
    reflexivity. }
  split; [reflexivity|]. split; [exact S|].
  unfold modelBody. rewrite compoundKey_truthy, S. reflexivity.
Qed.

(** *** The capability cache *)

Lemma getModels_hit w ms :
  cachedModels (svc w) = Some ms -> getModels toLocaleString w = (ms, w).
Proof.
  intros H. unfold getModels, bind, this; simpl. now rewrite H.
Qed.


(** Unfolding one method into its branches. *)
Ltac tidy := cbn beta iota zeta delta [fst snd svc net log] in *.

Ltac expose :=
  unfold run, forget, initialize, healthCheck, getModels, getProviders,
    clearCache, createSession, getSession, listSessions, deleteSession,
    query, getMessages, shareSession, cleanup, abort, setSessionId,
    getSessionId, bind, this, ret, update, emit, await in *;
  cbn beta iota zeta delta [fst snd svc net log] in *.

Ltac branch :=
  match goal with
  | |- context [match ?x with _ => _ end] =>
      lazymatch x with
      | context [match _ with _ => _ end] => fail
      | _ => destruct x eqn:?
      end
  end; cbn beta iota zeta delta [fst snd svc net log] in *.

Ltac branches := expose; repeat branch.

(** No method other than [getModels] and [clearCache] assigns the model
    cache, and [getModels] leaves a filled cache alone. *)
Lemma run_keeps_models (k : Call) w ms :
  cachedModels (svc w) = Some ms ->
  cachedModels (svc (snd (run toLocaleString k w))) = Some ms.
Proof.
  intros H. destruct k; branches; cbn; try assumption; congruence.
Qed.

Lemma runAll_keeps_models (ks : list Call) w ms :
  cachedModels (svc w) = Some ms ->
  cachedModels (svc (snd (runAll toLocaleString ks w))) = Some ms.
Proof.
  revert w. induction ks as [|k rest IH]; intros w H; [exact H|].
  cbn [runAll]. unfold bind.
  destruct (run toLocaleString k w) as [u w'] eqn:R.
  apply IH. change w' with (snd (u, w')). rewrite <- R.
  now apply run_keeps_models.
Qed.




(** *** The bound session and deletion *)

Lemma isCurrent_true (s : Service remote unknown) i :
  isCurrent s i = true <-> currentSessionId s = Some i.
Proof.
  unfold isCurrent. destruct (currentSessionId s) as [cur|].
  - rewrite String.eqb_eq. split; congruence.
  - split; discriminate.
Qed.

Lemma deleteSession_pointer i w :
  currentSessionId (svc (snd (deleteSession i w))) =
  if fst (deleteSession i w) && isCurrent (svc w) i
  then None else currentSessionId (svc w).
Proof.
  branches; reflexivity || discriminate.
Qed.

(** *** Malformed model keys *)

Lemma split_shape s :
  split colon s =
  beforeColon s :: match afterColon s with
                   | Some rest => split colon rest
                   | None => []
                   end.
Proof.
  induction s as [|a s IH]; [reflexivity|]. simpl.
  destruct (Ascii.eqb a colon); [reflexivity|]. now rewrite IH.
Qed.

Lemma splitKey_shape key :
  splitKey key =
  (Some (beforeColon key),
   match afterColon key with
   | Some rest => Some (beforeColon rest)
   | None => None
   end).
Proof.
  unfold splitKey. rewrite split_shape.
  destruct (afterColon key) as [rest|]; [|reflexivity].
  now rewrite (split_shape rest).
Qed.

Lemma modelBody_malformed key :
  malformed key = true -> modelBody (Some key) = None.
Proof.
  unfold malformed, modelBody. intros H.
  destruct (truthy_string key); [|reflexivity].
  rewrite splitKey_shape.
  destruct (afterColon key) as [rest|]; [|reflexivity].
  destruct (truthy_string (beforeColon key)),
           (truthy_string (beforeColon rest)); (discriminate || reflexivity).
Qed.

(** [query] reads its options only for the session id and the model. *)
Lemma query_reads options options' prompt w :
  optSessionId options = optSessionId options' ->
  modelBody (optModel options) = modelBody (optModel options') ->
  query prompt options w = query prompt options' w.
Proof.
  intros S B. unfold query, promptBody. now rewrite S, B.
Qed.

(** C10.  A model key that is malformed (no colon, or nothing before the
    first colon, or nothing after it) is dropped: the request body carries
    no model selector, the run of [query] is the run made with the same
    options without any model key, and when the client, the session and the
    prompt method are there the one prompt request is sent without
    selector and a resolved response is normalised as usual. *)
Theorem malformed_model_key_is_dropped prompt (o : OpencodeQueryOptions) key w :
  model o = Some key -> malformed key = true ->
  promptBody prompt (optModel (Some o)) =
    {| parts := [TextPart prompt]; bodyModel := None; noReply := false |}
  /\ query prompt (Some o) w = query prompt (Some (withoutModel o)) w
  /\ forall c f,
       client (svc w) = Some c ->
       truthy (target (Some o) w) = true ->
       session_prompt c = Some f ->
       let sid := nullish (target (Some o) w) "" in
       let body :=
         {| parts := [TextPart prompt]; bodyModel := None; noReply := false |} in
       log (snd (query prompt (Some o) w))
       = (log w ++ [QueryEntered prompt; SessionPrompt sid body])%list
       /\ forall response,
            fst (f sid body (net w)) = Resolved response ->
            fst (query prompt (Some o) w) = normalise response.
Proof.
  intros K Bad.
  assert (B : promptBody prompt (optModel (Some o)) =
              {| parts := [TextPart prompt]; bodyModel := None;
                 noReply := false |}).
  { unfold promptBody, optModel. now rewrite K, (modelBody_malformed _ Bad). }
  split; [exact B|]. split.
  - apply query_reads; [reflexivity|].
    cbn [optModel withoutModel model]. now rewrite K, (modelBody_malformed _ Bad).
  - intros c f C T P. cbn zeta.
    rewrite (query_ready prompt (Some o) w C T P). cbn zeta. rewrite B.
    cbn [fst snd log]. split.
    + now rewrite <- app_assoc.
    + intros response R. now rewrite R.
Qed.

(** *** Neutral results *)

Ltac fails_with H :=
  unfold unavailable, applied in H; expose;
  repeat (branch; try reflexivity);
  cbn in H;
  repeat match goal with
         | E : ?f ?n = (_, _) |- _ => rewrite E in H; cbn in H
         end;
  try (let x := fresh in let H' := fresh in
       destruct H as [x H']; discriminate H').

(** C8, as the code has it.  When there is no client, or the client lacks
    the method, or the request is rejected, [healthCheck] returns [false],
    [createSession], [getSession] and [shareSession] return [null],
    [listSessions], [deleteSession] and [getMessages] return [[]], [false]
    and [[]]; [getProviders] returns the provider list it has cached, and
    [[]] when it has cached none. *)
Theorem neutral_on_failure w :
  (unavailable global_health w -> fst (healthCheck w) = false)
  /\ (forall title,
        unavailable (applied session_create (nullish title "OpenCode Session")) w ->
        fst (createSession title w) = None)
  /\ (forall i, unavailable (applied session_get i) w ->
                fst (getSession i w) = None)
  /\ (unavailable session_list w -> fst (listSessions w) = [])
  /\ (forall i, unavailable (applied session_delete i) w ->
                fst (deleteSession i w) = false)
  /\ (forall i, unavailable (applied session_messages i) w ->
                fst (getMessages i w) = [])
  /\ (forall i, unavailable (applied session_share i) w ->
                fst (shareSession i w) = None)
  /\ (unavailable config_providers w ->
      fst (getProviders w) = nullish (cachedProviders (svc w)) []).
Proof.
  repeat split; intros; match goal with H : unavailable _ _ |- _ => fails_with H end.
Qed.

(** *** Cancellation *)

(** C5, as the code has it.  With an empty abort-controller slot, [abort()]
    leaves every field of the service as it is.  It sends nothing when no
    session is bound, when there is no client or when the client has no
    abort method; otherwise it sends one abort request for the bound
    session, whose settlement it ignores. *)
Theorem abort_without_query w :
  abortController (svc w) = None ->
  svc (snd (abort w)) = svc w
  /\ (forall c f,
        client (svc w) = Some c -> session_abort c = Some f ->
        truthy (currentSessionId (svc w)) = true ->
        let sid := nullish (currentSessionId (svc w)) "" in
        log (snd (abort w)) = (log w ++ [SessionAbort sid])%list
        /\ net (snd (abort w)) = snd (f sid (net w)))
  /\ (client (svc w) = None
      \/ truthy (currentSessionId (svc w)) = false
      \/ (exists c, client (svc w) = Some c /\ session_abort c = None) ->
      abort w = (tt, w)).
Proof.
  intros A. expose. rewrite A; tidy. split; [|split].
  - repeat branch; reflexivity.
  - intros c f C F T. rewrite T, C, F; tidy.
    destruct (f _ (net w)) as [r n]. split; reflexivity.
  - intros [C|[T|[c [C F]]]].
    + rewrite C. destruct (truthy _); reflexivity.
    + now rewrite T.
    + rewrite C, F. destruct (truthy _); reflexivity.
Qed.

End ServiceProperties.

(** * Properties of [OpencodeServiceWrapper] *)

Section WrapperProperties.

Import OpencodeServiceWrapper Spec.

Context {remote unknown callback : Type}.

Implicit Types (st : State remote unknown callback).

Ltac expose_wrapper :=
  unfold query, forward, createSession, deleteSession, getSessionId,
    setSessionId, service, assign, me, bind, ret in *;
  cbn beta iota zeta delta [fst snd self opencodeService] in *.

(** *** Chunk translation *)

(** The service's error chunks carry their message in [content]; the
    [error] case of [convertChunk] reads [error]. *)
Lemma convertChunk_service_error (message : string) :
  convertChunk (asRaw (OpencodeService.errorChunk message))
  = Error "Unknown error".
Proof. reflexivity. Qed.

Lemma forward_chunks prompt images_ queryOptions st :
  fst (forward prompt images_ queryOptions st) =
  map (fun c => convertChunk (asRaw c))
      (fst (OpencodeService.query prompt
              (Some (serviceOptions (self st) images_ queryOptions))
              (opencodeService st))).
Proof.
  expose_wrapper.
  destruct (OpencodeService.query _ _ (opencodeService st)); reflexivity.
Qed.

Lemma query_bound prompt images_ history queryOptions st :
  truthy (currentSessionId (self st)) = true ->
  query prompt images_ history queryOptions st
  = forward prompt images_ queryOptions st.
Proof.
  intros T. unfold query, bind, me. now rewrite T.
Qed.

(** Whenever the service closes its stream with an error chunk, whatever
    its message, the adapter closes its own with the placeholder. *)
Lemma adapter_forwards_placeholder prompt images_ history queryOptions st
  body message :
  truthy (currentSessionId (self st)) = true ->
  fst (OpencodeService.query prompt
         (Some (serviceOptions (self st) images_ queryOptions))
         (opencodeService st))
  = (body ++ [OpencodeService.errorChunk message])%list ->
  exists body',
    fst (query prompt images_ history queryOptions st)
    = (body' ++ [Error "Unknown error"])%list.
Proof.
  intros T Q. rewrite (query_bound _ _ _ _ _ T), forward_chunks, Q, map_app.
  eexists. reflexivity.
Qed.

(** *** Lazy session creation *)

(** What a failed [createSession] of the service leaves in the log. *)
Lemma createSession_failed_log title (w : OpencodeService.World remote unknown) :
  fst (OpencodeService.createSession title w) = None ->
  exists added,
    OpencodeService.log (snd (OpencodeService.createSession title w))
    = (OpencodeService.log w ++ added)%list
    /\ forallb (fun e => negb (queryEvent e)) added = true.
Proof.
  unfold OpencodeService.createSession, OpencodeService.this,
    OpencodeService.emit, OpencodeService.await, OpencodeService.update,
    bind, ret; cbn beta iota zeta delta [fst snd OpencodeService.svc].
  destruct (OpencodeService.client (OpencodeService.svc w)) as [c|].
  - destruct (OpencodeService.session_create c) as [create|].
    + destruct (create _ _) as [[newId|e] n]; cbn; intros H;
        [discriminate H|].
      eexists; split; reflexivity.
    + intros _. eexists; split; reflexivity.
  - intros _. eexists; split; reflexivity.
Qed.

(** C2.  With no session bound and a service whose [createSession()]
    returns [null], the adapter's [query] yields the one chunk
    [{type:'error', content:'Failed to create OpenCode session'}] and
    returns: what it leaves behind is what the failed [createSession] left,
    and the log gains neither an entry into the service's [query] nor a
    prompt request. *)
Theorem query_without_session_stops prompt images_ history queryOptions st :
  currentSessionId (self st) = None ->
  fst (OpencodeService.createSession None (opencodeService st)) = None ->
  query prompt images_ history queryOptions st
  = ([Error "Failed to create OpenCode session"],
     {| self := self st;
        opencodeService :=
          snd (OpencodeService.createSession None (opencodeService st)) |})
  /\ exists added,
       OpencodeService.log
         (opencodeService (snd (query prompt images_ history queryOptions st)))
       = (OpencodeService.log (opencodeService st) ++ added)%list
       /\ forallb (fun e => negb (queryEvent e)) added = true.
Proof.
  intros B F.
  assert (Q : query prompt images_ history queryOptions st
              = ([Error "Failed to create OpenCode session"],
                 {| self := self st;
                    opencodeService :=
                      snd (OpencodeService.createSession None
                             (opencodeService st)) |})).
  { expose_wrapper. rewrite B. cbn [truthy negb].
    destruct (OpencodeService.createSession None (opencodeService st))
      as [created w'].
    cbn [fst] in F. subst created. reflexivity. }
  split; [exact Q|]. rewrite Q. cbn [snd opencodeService].
  now apply createSession_failed_log.
Qed.

(** *** Deletion *)

Lemma isCurrent_bound (a : Adapter callback) i :
  isCurrent a i = true <-> currentSessionId a = Some i.
Proof.
  unfold isCurrent. destruct (currentSessionId a) as [cur|].
  - rewrite String.eqb_eq. split; congruence.
  - split; discriminate.
Qed.

Lemma adapter_deleteSession_pointer i st :
  currentSessionId (self (snd (deleteSession i st))) =
  if fst (deleteSession i st) && isCurrent (self st) i
  then None else currentSessionId (self st).
Proof.
  expose_wrapper.
  destruct (OpencodeService.deleteSession i (opencodeService st))
    as [deleted w'].
  cbn [self]. destruct deleted, (isCurrent (self st) i); reflexivity.
Qed.

(** C9.  [deleteSession(id)], on the service and on the adapter alike:
    when the deletion returns [true] and the bound session is [id],
    [getSessionId()] returns [null] afterwards; when it returns [false], or
    the bound session is not [id], [getSessionId()] returns what it
    returned before. *)
Theorem deleteSession_unbinds_only_the_deleted i
  (w : OpencodeService.World remote unknown) st :
  let served := OpencodeService.deleteSession i w in
  let adapted := deleteSession i st in
  (fst served = true ->
   OpencodeService.currentSessionId (OpencodeService.svc w) = Some i ->
   fst (OpencodeService.getSessionId (snd served)) = None)
  /\ (fst served = false
      \/ OpencodeService.currentSessionId (OpencodeService.svc w) <> Some i ->
      fst (OpencodeService.getSessionId (snd served))
      = fst (OpencodeService.getSessionId w))
  /\ (fst adapted = true -> currentSessionId (self st) = Some i ->
      fst (getSessionId (snd adapted)) = None)
  /\ (fst adapted = false \/ currentSessionId (self st) <> Some i ->
      fst (getSessionId (snd adapted)) = fst (getSessionId st)).
Proof.
  cbn zeta.
  unfold OpencodeService.getSessionId, getSessionId, OpencodeService.this, me,
    bind, ret; cbn [fst].
  rewrite deleteSession_pointer, adapter_deleteSession_pointer.
  repeat split.
  - intros D C. apply isCurrent_true in C. now rewrite D, C.
  - intros [D|C]; [now rewrite D|].
    destruct (OpencodeService.isCurrent (OpencodeService.svc w) i) eqn:E.
    + apply isCurrent_true in E. contradiction.
    + now rewrite andb_false_r.
  - intros D C. apply isCurrent_bound in C. now rewrite D, C.
  - intros [D|C]; [now rewrite D|].
    destruct (isCurrent (self st) i) eqn:E.
    + apply isCurrent_bound in E. contradiction.
    + now rewrite andb_false_r.
Qed.

End WrapperProperties.

(** * The properties on the concrete backend *)

Section Instances.

Import OpencodeService Spec.

(** C1.  The adapter does not surface the message of the service's terminal
    error chunk.  With session [s1] bound and no client, the service ends
    its stream with the error chunk [OpenCode client not initialized]; with
    a prompt request rejected with [boom], it ends with the error chunk
    [boom].  In both runs the adapter's stream is the single error chunk
    [Unknown error]. *)
Theorem adapter_replaces_error_message :
  fst (query "hello"
         (Some (OpencodeServiceWrapper.serviceOptions
                  (OpencodeServiceWrapper.self Demo.detached) None None))
         (OpencodeServiceWrapper.opencodeService Demo.detached))
  = [errorChunk "OpenCode client not initialized"]
  /\ fst (OpencodeServiceWrapper.query "hello" None None None Demo.detached)
     = [OpencodeServiceWrapper.Error "Unknown error"]
  /\ fst (query "hello"
            (Some (OpencodeServiceWrapper.serviceOptions
                     (OpencodeServiceWrapper.self Demo.failingAdapter)
                     None None))
            (OpencodeServiceWrapper.opencodeService Demo.failingAdapter))
     = [errorChunk "boom"]
  /\ fst (OpencodeServiceWrapper.query "hello" None None None
            Demo.failingAdapter)
     = [OpencodeServiceWrapper.Error "Unknown error"].
Proof. repeat split; vm_compute; reflexivity. Qed.

Lemma query_without_session_stops_witness :
  OpencodeServiceWrapper.query "hello" None None None Demo.unbound
  = ([OpencodeServiceWrapper.Error "Failed to create OpenCode session"],
     {| OpencodeServiceWrapper.self :=
          OpencodeServiceWrapper.self Demo.unbound;
        OpencodeServiceWrapper.opencodeService :=
          snd (createSession None Demo.fresh) |}).
Proof.
  exact (proj1 (@query_without_session_stops nat unit unit
                  "hello" None None None Demo.unbound eq_refl eq_refl)).
Defined.

Lemma query_yields_parts_in_order_witness :
  fst (query "hello" None Demo.bound)
  = [ chunk "thinking" (Some "t1"); chunk "text" (Some "answer");
      chunk "done" None ].
Proof.
  exact (proj1 (proj2
           (@query_yields_parts_in_order nat unit "hello" None Demo.bound
              Demo.server (fun _ _ => Demo.counted Demo.answer)
              _ 2 eq_refl eq_refl eq_refl eq_refl)) eq_refl).
Defined.

Lemma abort_without_query_witness :
  svc (snd (abort Demo.bound)) = svc Demo.bound
  /\ log (snd (abort Demo.bound)) = (log Demo.bound ++ [SessionAbort "s1"])%list.
Proof.
  destruct (@abort_without_query nat unit Demo.bound eq_refl) as [S [L _]].
  split; [exact S|].
  exact (proj1 (L Demo.server (fun _ => Demo.counted true)
                  eq_refl eq_refl eq_refl)).
Defined.

(** With a session bound and a client that can abort, [abort()] sends an
    abort request although no query is outstanding. *)
Lemma idle_abort_sends_request :
  abortController (svc Demo.bound) = None
  /\ log (snd (abort Demo.bound)) = (log Demo.bound ++ [SessionAbort "s1"])%list
  /\ net (snd (abort Demo.bound)) = S (net Demo.bound)
  /\ snd (abort Demo.bound) <> Demo.bound.
Proof.
  repeat split; try reflexivity.
  intros E. apply (f_equal (fun w => net w)) in E. discriminate E.
Qed.

Lemma compound_key_round_trip_witness :
  splitKey (value (selectorEntry Demo.locale Demo.anthropic
                     ("claude", Demo.claude)))
  = (Some "anthropic", Some "claude").
Proof.
  exact (proj1 (proj2
           (@compound_key_round_trip Demo.locale Demo.anthropic
              "claude" Demo.claude eq_refl eq_refl))).
Defined.



Lemma neutral_on_failure_witness :
  fst (healthCheck Demo.fresh) = false
  /\ fst (listSessions Demo.stranded) = []
  /\ fst (getProviders Demo.stranded) = [].
Proof.
  split; [|split].
  - exact (proj1 (@neutral_on_failure nat unit Demo.fresh) I).
  - refine (proj1 (proj2 (proj2 (proj2
              (@neutral_on_failure nat unit Demo.stranded)))) _).
    exists (ErrorObject "down"). reflexivity.
  - refine (proj2 (proj2 (proj2 (proj2 (proj2 (proj2 (proj2
              (@neutral_on_failure nat unit Demo.stranded))))))) _).
    exists (ErrorObject "down"). reflexivity.
Defined.

(** After a fetch and [cleanup()] the client is gone and the provider cache
    is still filled: [getProviders()] answers from the cache. *)
Lemma getProviders_serves_cache_without_client :
  let w := snd (cleanup (snd (getProviders Demo.connected))) in
  client (svc w) = None
  /\ fst (getProviders w) = [Demo.anthropic]
  /\ fst (getProviders w) <> [].
Proof. cbn zeta. repeat split; try reflexivity. discriminate. Qed.

Lemma deleteSession_unbinds_only_the_deleted_witness :
  fst (getSessionId (snd (deleteSession "s1" Demo.bound))) = None
  /\ fst (getSessionId (snd (deleteSession "s2" Demo.bound)))
     = fst (getSessionId Demo.bound)
  /\ fst (OpencodeServiceWrapper.getSessionId
            (snd (OpencodeServiceWrapper.deleteSession "s1"
                    Demo.workingAdapter))) = None.
Proof.
  split; [|split].
  - exact (proj1 (@deleteSession_unbinds_only_the_deleted nat unit unit
                    "s1" Demo.bound Demo.workingAdapter) eq_refl eq_refl).
  - refine (proj1 (proj2 (@deleteSession_unbinds_only_the_deleted nat unit
                            unit "s2" Demo.bound Demo.workingAdapter)) _).
    right. discriminate.
  - exact (proj1 (proj2 (proj2
             (@deleteSession_unbinds_only_the_deleted nat unit unit
                "s1" Demo.bound Demo.workingAdapter))) eq_refl eq_refl).
Defined.

Lemma malformed_model_key_is_dropped_witness :
  let o := {| model := Some "gpt4"; provider := None; allowedTools := None;
              sessionId := None; externalContextPaths := None;
              mcpServers := None; images := None |} in
  query "hello" (Some o) Demo.bound
  = query "hello" (Some (withoutModel o)) Demo.bound
  /\ fst (query "hello" (Some o) Demo.bound) = normalise Demo.answer.
Proof.
  cbn zeta.
  destruct (@malformed_model_key_is_dropped nat unit "hello"
              {| model := Some "gpt4"; provider := None; allowedTools := None;
                 sessionId := None; externalContextPaths := None;
                 mcpServers := None; images := None |}
              "gpt4" Demo.bound eq_refl eq_refl) as [_ [Same Sent]].
  split; [exact Same|].
  exact (proj2 (Sent Demo.server (fun _ _ => Demo.counted Demo.answer)
                  eq_refl eq_refl eq_refl) Demo.answer eq_refl).
Defined.

End Instances.

(** * Further properties of [OpencodeService] *)

Ltac reduce_world :=
  cbn beta iota zeta delta
    [fst snd OpencodeService.svc OpencodeService.net OpencodeService.log] in *.

Ltac open_service :=
  unfold Spec.run, Spec.forget, OpencodeService.initialize,
    OpencodeService.healthCheck, OpencodeService.getModels,
    OpencodeService.getProviders, OpencodeService.clearCache,
    OpencodeService.createSession, OpencodeService.getSession,
    OpencodeService.listSessions, OpencodeService.deleteSession,
    OpencodeService.query, OpencodeService.getMessages,
    OpencodeService.shareSession, OpencodeService.cleanup,
    OpencodeService.abort, OpencodeService.setSessionId,
    OpencodeService.getSessionId, OpencodeService.this,
    OpencodeService.update, OpencodeService.emit, OpencodeService.await,
    bind, ret in *;
  reduce_world.

Ltac case_split :=
  match goal with
  | |- context [match ?x with _ => _ end] =>
      lazymatch x with
      | context [match _ with _ => _ end] => fail
      | _ => destruct x eqn:?
      end
  end; reduce_world.

Ltac all_cases := open_service; repeat case_split.

Section ServiceConduct.

Import OpencodeService Spec Notions.

Context {remote unknown : Type}.
Variables toLocaleString numberToString : Z -> string.

Implicit Types (w : World remote unknown).

(** *** What a query leaves behind *)

Lemma set_abortController_idle (s : Service remote unknown) :
  abortController s = None -> set_abortController None s = s.
Proof. destruct s; cbn; intros ->; reflexivity. Qed.

Lemma set_abortController_twice (a b : option AbortController)
  (s : Service remote unknown) :
  set_abortController a (set_abortController b s) = set_abortController a s.
Proof. reflexivity. Qed.

(** A run of [query] never rebinds the session, never replaces the client
    and never touches the caches or the configuration; when no controller
    was installed before, the service object is field for field what it
    was. *)
Theorem query_leaves_service_alone prompt options w :
  let s' := svc (snd (query prompt options w)) in
  client s' = client (svc w)
  /\ currentSessionId s' = currentSessionId (svc w)
  /\ cachedProviders s' = cachedProviders (svc w)
  /\ cachedModels s' = cachedModels (svc w)
  /\ config s' = config (svc w)
  /\ (abortController (svc w) = None -> s' = svc w).
Proof.
  cbn zeta. all_cases; repeat split; try reflexivity; try assumption;
    intros A; rewrite set_abortController_twice;
    now apply set_abortController_idle.
Qed.

(** *** A service without client *)

Lemma run_offline (k : Call) w :
  installs k = false -> client (svc w) = None ->
  let w' := snd (run toLocaleString k w) in
  client (svc w') = None /\ net w' = net w
  /\ exists added,
       log w' = (log w ++ added)%list
       /\ forallb (fun e => negb (remoteEvent e)) added = true.
Proof.
  intros I C. cbn zeta.
  destruct k; try discriminate I; all_cases;
    cbn [client set_client set_currentSessionId set_abortController
         set_cachedProviders set_cachedModels] in *;
    try congruence;
    (split; [assumption || reflexivity|]); (split; [reflexivity|]);
    first [ exists []; split; [now rewrite app_nil_r|reflexivity]
          | eexists; split; reflexivity ].
Qed.

Lemma perform_offline (m : Method) w :
  initializes m = false -> client (svc w) = None ->
  let w' := snd (perform toLocaleString numberToString m w) in
  client (svc w') = None /\ net w' = net w
  /\ exists added,
       log w' = (log w ++ added)%list
       /\ forallb (fun e => negb (remoteEvent e)) added = true.
Proof.
  intros I C. destruct m as [k| |]; cbn [perform initializes] in *.
  - now apply run_offline.
  - cbn zeta. unfold clearCache, update, bind. cbn.
    repeat split; try assumption. exists []. now rewrite app_nil_r.
  - cbn zeta. unfold forget, getServerUrl, this, bind, ret. cbn.
    repeat split; try assumption. exists []. now rewrite app_nil_r.
Qed.

(** Without a client (before [initialize()], or after [cleanup()]) no
    sequence of public methods other than [initialize()] sends anything to
    the server: the client stays absent, the server's state is untouched
    and the log gains no request. *)
Theorem offline_service_sends_nothing (ms : list Method) w :
  forallb (fun m => negb (initializes m)) ms = true ->
  client (svc w) = None ->
  let w' := snd (performAll toLocaleString numberToString ms w) in
  client (svc w') = None /\ net w' = net w
  /\ exists added,
       log w' = (log w ++ added)%list
       /\ forallb (fun e => negb (remoteEvent e)) added = true.
Proof.
  revert w. induction ms as [|m rest IH]; intros w K C; cbn zeta.
  - repeat split; try assumption. exists []. now rewrite app_nil_r.
  - cbn [forallb] in K. apply andb_true_iff in K as [Km Krest].
    apply negb_true_iff in Km.
    destruct (perform_offline m w Km C) as [C1 [N1 [added1 [L1 F1]]]].
    cbn [performAll]. unfold bind.
    destruct (perform toLocaleString numberToString m w) as [u w1].
    cbn [snd] in *.
    destruct (IH w1 Krest C1) as [C2 [N2 [added2 [L2 F2]]]].
    split; [exact C2|]. split; [congruence|].
    exists (added1 ++ added2)%list. split.
    + now rewrite L2, L1, app_assoc.
    + now rewrite forallb_app, F1, F2.
Qed.

(** *** Memoisation of the capability data *)

(** [getProviders()] caches what the server answered, not that it failed:
    after a resolved fetch the next call returns the same list and sends
    nothing; after a rejected fetch the result is [[]], nothing is cached
    and the next call asks the server again. *)
Theorem getProviders_memoises_successes w c f :
  cachedProviders (svc w) = None ->
  client (svc w) = Some c -> config_providers c = Some f ->
  let w1 := snd (getProviders w) in
  match fst (f (net w)) with
  | Resolved ps =>
      fst (getProviders w) = ps /\ getProviders w1 = (ps, w1)
  | Rejected _ =>
      fst (getProviders w) = []
      /\ cachedProviders (svc w1) = None
      /\ log (snd (getProviders w1))
         = (log w ++ [ConfigProviders; ConfigProviders])%list
  end.
Proof.
  intros P C F. cbn zeta. open_service. rewrite P; reduce_world.
  rewrite C; reduce_world. rewrite F; reduce_world.
  destruct (f (net w)) as [[ps|e] n]; reduce_world.
  - split; reflexivity.
  - rewrite P; reduce_world. rewrite C; reduce_world.
    rewrite F; reduce_world.
    destruct (f n) as [[ps'|e'] n']; reduce_world;
      (split; [reflexivity|]); (split; [reflexivity|]);
      now rewrite <- app_assoc.
Qed.

(** [getModels()] caches its result whatever the fetch gave: when the
    providers cannot be fetched (no client, no method, or a rejected
    request) it returns [[]] and stores that empty list, so that every
    later [getModels()], even after a client has been installed, returns
    [[]] without asking the server, until [clearCache()]. *)
Theorem failed_fetch_caches_empty_model_list w :
  cachedProviders (svc w) = None -> cachedModels (svc w) = None ->
  unavailable config_providers w ->
  let w1 := snd (getModels toLocaleString w) in
  fst (getModels toLocaleString w) = []
  /\ cachedModels (svc w1) = Some []
  /\ cachedProviders (svc w1) = None
  /\ forall ks : list Call,
       let w2 := snd (runAll toLocaleString ks w1) in
       getModels toLocaleString w2 = ([], w2).
Proof.
  intros P Ms U. cbn zeta.
  assert (E : fst (getModels toLocaleString w) = []
              /\ cachedModels (svc (snd (getModels toLocaleString w))) = Some []
              /\ cachedProviders (svc (snd (getModels toLocaleString w))) = None).
  { unfold unavailable in U. open_service. rewrite Ms; reduce_world.
    rewrite P; reduce_world.
    destruct (client (svc w)) as [c|]; reduce_world;
      [|repeat split; assumption].
    destruct (config_providers c) as [f|]; reduce_world;
      [|repeat split; assumption].
    destruct U as [e U]. destruct (f (net w)) as [r n]. cbn [fst] in U.
    subst r. reduce_world. repeat split; assumption. }
  destruct E as [E1 [E2 E3]]. repeat split; try assumption.
  intros ks. apply getModels_hit. now apply runAll_keeps_models.
Qed.

(** *** The model list and the keys in it *)


Lemma colonFree_beforeColon s : colonFree (beforeColon s).
Proof.
  unfold colonFree. induction s as [|a s IH]; [reflexivity|]. cbn.
  destruct (Ascii.eqb a colon) eqn:E; [reflexivity|]. cbn. now rewrite E.
Qed.

Lemma splitKey_compound p m :
  colonFree p ->
  splitKey (compoundKey p m) = (Some p, Some (beforeColon m)).
Proof.
  intros Hp. unfold splitKey. rewrite (split_compound _ Hp), split_shape.
  reflexivity.
Qed.

Lemma modelBody_compound p m :
  colonFree p ->
  modelBody (Some (compoundKey p m)) =
  if truthy_string p && truthy_string (beforeColon m)
  then Some {| providerID := p; modelID := beforeColon m |}
  else None.
Proof.
  intros Hp. unfold modelBody.
  now rewrite compoundKey_truthy, (splitKey_compound _ Hp).
Qed.

(** A model id that itself contains a colon does not survive the key.
    With a non-empty colon-free provider id, the selector sent to the
    backend carries the provider id and the model id cut at its first
    colon when something precedes that colon, and no selector is sent when
    nothing does (an empty model id, or one that starts with a colon); a
    model id that contains a colon always differs from its cut. *)
Theorem colon_in_model_id_is_cut p m :
  colonFree p -> truthy_string p = true ->
  modelBody (Some (compoundKey p m))
  = (if truthy_string (beforeColon m)
     then Some {| providerID := p; modelID := beforeColon m |}
     else None)
  /\ (includes colon m = true -> beforeColon m <> m).
Proof.
  intros Hp Tp. split.
  - now rewrite (modelBody_compound _ Hp), Tp.
  - intros I E. pose proof (colonFree_beforeColon m) as F.
    unfold colonFree in F. rewrite E in F. congruence.
Qed.





End ServiceConduct.

(** * Further properties of [OpencodeServiceWrapper] *)

Section AdapterConduct.

Import OpencodeServiceWrapper Spec Notions.

Context {remote unknown callback : Type}.
Variables toLocaleString numberToString : Z -> string.

Implicit Types (st : State remote unknown callback).

Ltac open_adapter :=
  unfold query, forward, createSession, deleteSession, getSessionId,
    setSessionId, resetSession, cleanup, abort, healthCheck, listSessions,
    getMessages, getProviders, getModels, initialize, service, assign, me,
    bind, ret in *;
  cbn beta iota zeta delta [fst snd self opencodeService] in *.

(** *** Chunk translation *)

(** [convertChunk] turns the service's terminal chunks, and only them, into
    terminal chunks. *)
Lemma convertChunk_terminal (c : OpencodeStreamChunk) :
  terminalChunk (convertChunk (asRaw c)) = terminal c.
Proof.
  unfold convertChunk, terminal. cbn [asRaw rawType].
  generalize (type c); intros t.
  destruct (String.eqb_spec t "text") as [->|_]; [reflexivity|].
  destruct (String.eqb_spec t "thinking") as [->|_]; [reflexivity|].
  destruct (String.eqb_spec t "reasoning") as [->|_]; [reflexivity|].
  destruct (String.eqb_spec t "tool_use") as [->|_]; [reflexivity|].
  destruct (String.eqb_spec t "tool_result") as [->|_]; [reflexivity|].
  destruct (String.eqb_spec t "error") as [->|_]; [reflexivity|].
  destruct (String.eqb_spec t "usage") as [->|_]; [reflexivity|].
  destruct (String.eqb_spec t "session") as [->|_]; [reflexivity|].
  destruct (String.eqb_spec t "done") as [->|_]; reflexivity.
Qed.

Lemma closed_converted (cs : list OpencodeStreamChunk) :
  closed cs -> closedStream (map (fun c => convertChunk (asRaw c)) cs).
Proof.
  intros [body [last [-> [T B]]]].
  exists (map (fun c => convertChunk (asRaw c)) body), (convertChunk (asRaw last)).
  split; [now rewrite map_app|]. split; [now rewrite convertChunk_terminal|].
  rewrite forallb_forall in *. intros x I.
  apply in_map_iff in I as [c [<- I]]. rewrite convertChunk_terminal.
  now apply B.
Qed.

(** The two shapes a run of the service's [query] can have. *)
Lemma query_cases prompt options (w : OpencodeService.World remote unknown) :
  (exists message,
     fst (OpencodeService.query prompt options w)
     = [OpencodeService.errorChunk message])
  \/ (exists response,
        fst (OpencodeService.query prompt options w)
        = OpencodeService.normalise response).
Proof.
  destruct (OpencodeService.client (OpencodeService.svc w)) as [c|] eqn:C.
  - destruct (truthy (target options w)) eqn:T.
    + destruct (OpencodeService.session_prompt c) as [f|] eqn:P.
      * rewrite (query_ready prompt options w C T P). cbn zeta. cbn [fst].
        destruct (fst (f _ _ _)) as [response|e];
          [right|left]; eexists; reflexivity.
      * rewrite (query_no_prompt prompt options w C T P).
        left; eexists; reflexivity.
    + rewrite (query_no_session prompt options w C T).
      left; eexists; reflexivity.
  - rewrite (query_uninitialised prompt options w C).
    left; eexists; reflexivity.
Qed.

Lemma service_stream_closed prompt options
  (w : OpencodeService.World remote unknown) :
  closed (fst (OpencodeService.query prompt options w)).
Proof.
  destruct (query_cases prompt options w) as [[m ->]|[r ->]].
  - apply closed_single. reflexivity.
  - apply normalise_closed.
Qed.

Lemma forward_closed prompt images_ queryOptions st :
  closedStream (fst (forward prompt images_ queryOptions st)).
Proof.
  rewrite forward_chunks. apply closed_converted, service_stream_closed.
Qed.

(** Every run of the adapter's [query] yields exactly one terminal chunk
    ([done] or [error]), and yields it last: after a failed lazy session
    creation, after any outcome of the service's stream. *)
Theorem adapter_stream_closed prompt images_ history queryOptions st :
  closedStream (fst (query prompt images_ history queryOptions st)).
Proof.
  unfold query, bind, me.
  destruct (negb (truthy (currentSessionId (self st)))).
  - destruct (createSession None st) as [sessionId_ st'].
    destruct (negb (truthy sessionId_)).
    + exists [], (Error "Failed to create OpenCode session").
      repeat split.
    + apply forward_closed.
  - apply forward_closed.
Qed.

Lemma convert_yieldParts ps :
  map (fun c => convertChunk (asRaw c)) (OpencodeService.yieldParts ps)
  = flat_map surfaced ps.
Proof.
  induction ps as [|part rest IH]; [reflexivity|].
  cbn [OpencodeService.yieldParts flat_map]. rewrite map_app, IH. f_equal.
  unfold OpencodeService.yieldPart, surfaced.
  destruct (partText part) as [[|a t]|]; cbn [truthy truthy_string];
    rewrite ?andb_false_r, ?andb_true_r; try reflexivity.
  destruct (String.eqb (partType part) "reasoning"); [reflexivity|].
  destruct (String.eqb (partType part) "text"); reflexivity.
Qed.

(** With a session bound on the adapter, the prompt goes to that session
    (whatever the service itself has bound), and a resolved response is
    surfaced part by part: a thinking block for each reasoning part with
    text, the text of each text part with text, in the order of the parts,
    then [done]. *)
Theorem adapter_surfaces_response prompt images_ history queryOptions st
  sid c f ps n :
  currentSessionId (self st) = Some sid -> truthy_string sid = true ->
  OpencodeService.client (OpencodeService.svc (opencodeService st)) = Some c ->
  OpencodeService.session_prompt c = Some f ->
  f sid
    (OpencodeService.promptBody prompt
       (match queryOptions with Some o => agentModel o | None => None end))
    (OpencodeService.net (opencodeService st))
  = (Resolved {| responseParts := Some ps |}, n) ->
  fst (query prompt images_ history queryOptions st)
  = (flat_map surfaced ps ++ [Done])%list.
Proof.
  intros B T C P R.
  assert (Tb : truthy (currentSessionId (self st)) = true) by now rewrite B.
  rewrite (query_bound _ _ _ _ _ Tb), forward_chunks.
  assert (Tg : truthy (target (Some (serviceOptions (self st) images_ queryOptions))
                         (opencodeService st)) = true).
  { unfold target. cbn. now rewrite B. }
  rewrite (query_ready prompt _ _ C Tg P). cbn zeta. cbn [fst].
  unfold target. cbn [OpencodeService.optSessionId OpencodeService.optModel
                      serviceOptions sessionId model].
  rewrite B. cbn [nullish_opt nullish]. rewrite R. cbn [fst].
  unfold OpencodeService.normalise. cbn [responseParts].
  destruct ps as [|part rest]; [reflexivity|].
  now rewrite map_app, convert_yieldParts.
Qed.

(** [convertChunk] on any chunk: it answers [done] exactly for the tag
    [done], an error chunk exactly for the tag [error], and an empty text
    for every tag it does not know. *)
Theorem convertChunk_tags (c : RawChunk) :
  (convertChunk c = Done <-> rawType c = "done")
  /\ ((exists message, convertChunk c = Error message) <-> rawType c = "error")
  /\ (~ In (rawType c)
          ["text"; "thinking"; "reasoning"; "tool_use"; "tool_result";
           "error"; "usage"; "session"; "done"] ->
      convertChunk c = Text "").
Proof.
  unfold convertChunk. generalize (rawType c); intros t.
  destruct (String.eqb_spec t "text") as [->|N1];
    [repeat split; try discriminate; try (intros [m H]; discriminate H);
     intros H; elim H; cbn; tauto|].
  destruct (String.eqb_spec t "thinking") as [->|N2];
    [repeat split; try discriminate; try (intros [m H]; discriminate H);
     intros H; elim H; cbn; tauto|].
  destruct (String.eqb_spec t "reasoning") as [->|N3];
    [repeat split; try discriminate; try (intros [m H]; discriminate H);
     intros H; elim H; cbn; tauto|].
  destruct (String.eqb_spec t "tool_use") as [->|N4];
    [repeat split; try discriminate; try (intros [m H]; discriminate H);
     intros H; elim H; cbn; tauto|].
  destruct (String.eqb_spec t "tool_result") as [->|N5];
    [repeat split; try discriminate; try (intros [m H]; discriminate H);
     intros H; elim H; cbn; tauto|].
  destruct (String.eqb_spec t "error") as [->|N6];
    [repeat split; try discriminate; try (intros [m H]; discriminate H);
     try (intros _; eexists; reflexivity);
     intros H; elim H; cbn; tauto|].
  destruct (String.eqb_spec t "usage") as [->|N7];
    [repeat split; try discriminate; try (intros [m H]; discriminate H);
     intros H; elim H; cbn; tauto|].
  destruct (String.eqb_spec t "session") as [->|N8];
    [repeat split; try discriminate; try (intros [m H]; discriminate H);
     intros H; elim H; cbn; tauto|].
  destruct (String.eqb_spec t "done") as [->|N9];
    [repeat split; try discriminate; try (intros [m H]; discriminate H);
     intros H; elim H; cbn; tauto|].
  repeat split; try discriminate; try (intros [m H]; discriminate H);
    try contradiction.
Qed.

(** *** Lazy session creation *)

Lemma service_createSession_resolved title
  (w : OpencodeService.World remote unknown) c g newId n :
  OpencodeService.client (OpencodeService.svc w) = Some c ->
  OpencodeService.session_create c = Some g ->
  g (nullish title "OpenCode Session") (OpencodeService.net w)
  = (Resolved newId, n) ->
  OpencodeService.createSession title w
  = (Some newId,
     {| OpencodeService.svc :=
          OpencodeService.set_currentSessionId (Some newId)
            (OpencodeService.svc w);
        OpencodeService.net := n;
        OpencodeService.log :=
          (OpencodeService.log w
           ++ [OpencodeService.SessionCreate
                 (nullish title "OpenCode Session")])%list |}).
Proof.
  intros C G R. open_service. rewrite C; reduce_world.
  rewrite G; reduce_world. now rewrite R.
Qed.

Lemma adapter_createSession_resolved title st c g newId n :
  OpencodeService.client (OpencodeService.svc (opencodeService st)) = Some c ->
  OpencodeService.session_create c = Some g ->
  g (nullish title "OpenCode Session")
    (OpencodeService.net (opencodeService st))
  = (Resolved newId, n) ->
  truthy_string newId = true ->
  createSession title st
  = (Some newId,
     {| self := set_currentSessionId (Some newId) (self st);
        opencodeService :=
          {| OpencodeService.svc :=
               OpencodeService.set_currentSessionId (Some newId)
                 (OpencodeService.svc (opencodeService st));
             OpencodeService.net := n;
             OpencodeService.log :=
               (OpencodeService.log (opencodeService st)
                ++ [OpencodeService.SessionCreate
                      (nullish title "OpenCode Session")])%list |} |}).
Proof.
  intros C G R T. unfold createSession, bind, service, assign, ret.
  rewrite (service_createSession_resolved title _ C G R).
  cbn [truthy]. rewrite T. reflexivity.
Qed.

(** With no session bound on the adapter, a working [createSession] whose
    answer is a non-empty id [sid] binds [sid] on the adapter and on the
    service, and the prompt is then sent to [sid]: the requests of the run
    are the session creation followed by the one prompt. *)
Theorem lazy_session_is_bound_and_used prompt images_ history queryOptions st
  c g f sid n :
  truthy (currentSessionId (self st)) = false ->
  OpencodeService.client (OpencodeService.svc (opencodeService st)) = Some c ->
  OpencodeService.session_create c = Some g ->
  OpencodeService.session_prompt c = Some f ->
  g "OpenCode Session" (OpencodeService.net (opencodeService st))
  = (Resolved sid, n) ->
  truthy_string sid = true ->
  let st' := snd (query prompt images_ history queryOptions st) in
  currentSessionId (self st') = Some sid
  /\ OpencodeService.currentSessionId
       (OpencodeService.svc (opencodeService st')) = Some sid
  /\ OpencodeService.log (opencodeService st')
     = (OpencodeService.log (opencodeService st)
        ++ [ OpencodeService.SessionCreate "OpenCode Session";
             OpencodeService.QueryEntered prompt;
             OpencodeService.SessionPrompt sid
               (OpencodeService.promptBody prompt
                  (match queryOptions with
                   | Some o => agentModel o
                   | None => None
                   end)) ])%list.
Proof.
  intros B C G P R T. cbn zeta.
  unfold query, bind, me. rewrite B. cbn [negb].
  rewrite (adapter_createSession_resolved None st C G R T).
  cbn [truthy]. rewrite T. cbn [negb].
  unfold forward, bind, me, service, ret.
  cbn [fst snd self opencodeService].
  match goal with
  | |- context [OpencodeService.query prompt ?o ?w] =>
      assert (Tg : truthy (target o w) = true)
        by (unfold target; cbn; now rewrite T);
      assert (Cw : OpencodeService.client (OpencodeService.svc w) = Some c)
        by exact C;
      rewrite (query_ready prompt o w Cw Tg P)
  end.
  cbn zeta. cbn [fst snd self opencodeService OpencodeService.svc
                 OpencodeService.net OpencodeService.log
                 set_currentSessionId currentSessionId].
  repeat split.
  unfold target. cbn. now rewrite <- !app_assoc.
Qed.

(** A server that answers a session creation with the empty string as id
    is treated as a failure by the adapter although the request succeeded:
    the run of [query] is the single error chunk, the adapter stays
    unbound, and the service is left bound to the empty id. *)
Theorem empty_session_id_is_a_failure prompt images_ history queryOptions st
  c g n :
  currentSessionId (self st) = None ->
  OpencodeService.client (OpencodeService.svc (opencodeService st)) = Some c ->
  OpencodeService.session_create c = Some g ->
  g "OpenCode Session" (OpencodeService.net (opencodeService st))
  = (Resolved "", n) ->
  let run := query prompt images_ history queryOptions st in
  fst run = [Error "Failed to create OpenCode session"]
  /\ currentSessionId (self (snd run)) = None
  /\ OpencodeService.currentSessionId
       (OpencodeService.svc (opencodeService (snd run))) = Some ""
  /\ OpencodeService.log (opencodeService (snd run))
     = (OpencodeService.log (opencodeService st)
        ++ [OpencodeService.SessionCreate "OpenCode Session"])%list
  /\ ~ inSync (snd run).
Proof.
  intros B C G R. cbn zeta.
  unfold query, bind, me. rewrite B. cbn [truthy negb].
  unfold createSession, bind, service, assign, ret.
  rewrite (service_createSession_resolved None _ C G R).
  cbn. repeat split; try assumption.
  unfold inSync. cbn. rewrite B. discriminate.
Qed.

(** *** The adapter and the service agree on the bound session *)

Lemma service_keeps_session (k : Call) (w : OpencodeService.World remote unknown) :
  match k with
  | CreateSession _ | DeleteSession _ | SetSessionId _ | Cleanup => True
  | _ =>
      OpencodeService.currentSessionId
        (OpencodeService.svc (snd (run toLocaleString k w)))
      = OpencodeService.currentSessionId (OpencodeService.svc w)
  end.
Proof.
  destruct k; try exact I; all_cases; reflexivity.
Qed.

Lemma service_createSession_failed title
  (w : OpencodeService.World remote unknown) :
  fst (OpencodeService.createSession title w) = None ->
  OpencodeService.svc (snd (OpencodeService.createSession title w))
  = OpencodeService.svc w.
Proof.
  all_cases; intros H; reflexivity || discriminate H.
Qed.

Lemma service_createSession_binds title
  (w : OpencodeService.World remote unknown) newId :
  fst (OpencodeService.createSession title w) = Some newId ->
  OpencodeService.currentSessionId
    (OpencodeService.svc (snd (OpencodeService.createSession title w)))
  = Some newId.
Proof.
  all_cases; intros H; try discriminate H. now injection H as ->.
Qed.

Lemma service_cleanup_releases (w : OpencodeService.World remote unknown) :
  OpencodeService.client (OpencodeService.svc (snd (OpencodeService.cleanup w)))
  = None
  /\ OpencodeService.currentSessionId
       (OpencodeService.svc (snd (OpencodeService.cleanup w))) = None.
Proof. all_cases; split; reflexivity. Qed.

Lemma forget_run {A : Type} (m : OpencodeService.M A)
  (w : OpencodeService.World remote unknown) :
  snd (forget m w) = snd (m w).
Proof. unfold forget, bind, ret. now destruct (m w). Qed.

Lemma discard_run {A : Type} (m : W A) st :
  snd (discard m st) = snd (m st).
Proof. unfold discard, bind, ret. now destruct (m st). Qed.

Ltac kept_by k w :=
  let X := fresh in
  pose proof (service_keeps_session k w) as X;
  cbn [run] in X; rewrite ?forget_run in X; exact X.

Lemma service_run {A : Type} (m : OpencodeService.M A) st :
  self (snd (service m st)) = self st
  /\ opencodeService (snd (service m st)) = snd (m (opencodeService st)).
Proof. unfold service. now destruct (m (opencodeService st)). Qed.

Lemma passthrough_sync {A : Type} (m : OpencodeService.M A) st :
  OpencodeService.currentSessionId
    (OpencodeService.svc (snd (m (opencodeService st))))
  = OpencodeService.currentSessionId
      (OpencodeService.svc (opencodeService st)) ->
  inSync st -> inSync (snd (service m st)).
Proof.
  unfold inSync. intros K H.
  destruct (service_run m st) as [-> ->]. congruence.
Qed.

Lemma createSession_sync title st :
  inSync st ->
  fst (OpencodeService.createSession title (opencodeService st)) <> Some "" ->
  inSync (snd (createSession title st)).
Proof.
  unfold inSync. intros H N.
  pose proof (service_createSession_failed title (opencodeService st)) as F.
  unfold createSession, bind, service, assign, ret.
  destruct (OpencodeService.createSession title (opencodeService st))
    as [[[|a newId]|] w']; cbn [fst snd] in *.
  - now elim N.
  - reflexivity.
  - cbn. now rewrite (F eq_refl).
Qed.

Lemma forward_sync prompt images_ queryOptions st :
  inSync st -> inSync (snd (forward prompt images_ queryOptions st)).
Proof.
  intros H. unfold forward, bind, me, ret.
  match goal with
  | |- context [service ?m st] =>
      pose proof (@passthrough_sync _ m st) as K;
      destruct (service m st) as [chunks st'] eqn:E
  end.
  cbn [snd] in *. apply K; [|exact H].
  kept_by (Query (remote := remote) (unknown := unknown) prompt
             (Some (serviceOptions (self st) images_ queryOptions)))
          (opencodeService st).
Qed.

(** Whatever the adapter is asked to do, it and its service keep agreeing
    on the bound session, provided the server never answers a session
    creation with the empty string as id. *)
Theorem adapter_keeps_binding_in_sync (a : Action) st :
  inSync st -> ~ issuesEmptyId a st ->
  inSync (snd (act toLocaleString a st)).
Proof.
  intros H N. destruct a; cbn [act issuesEmptyId] in *;
    rewrite ?discard_run.
  - apply passthrough_sync; [|exact H].
    kept_by (Initialize sdk) (opencodeService st).
  - apply passthrough_sync; [|exact H].
    kept_by (HealthCheck (remote := remote) (unknown := unknown)) (opencodeService st).
  - exact H.
  - exact H.
  - now apply createSession_sync.
  - reflexivity.
  - unfold query, bind, me.
    destruct (truthy (currentSessionId (self st))) eqn:T; cbn [negb].
    + now apply forward_sync.
    + assert (N' : fst (OpencodeService.createSession None (opencodeService st))
                   <> Some "") by tauto.
      pose proof (@createSession_sync None st H N') as S.
      destruct (createSession None st) as [sessionId_ st1]. cbn [snd] in S.
      destruct (negb (truthy sessionId_)); [exact S|].
      now apply forward_sync.
  - apply passthrough_sync; [|exact H].
    kept_by (Abort (remote := remote) (unknown := unknown)) (opencodeService st).
  - reflexivity.
  - unfold getProviders, bind, ret.
    pose proof (service_keeps_session GetProviders (opencodeService st)) as K.
    cbn [run] in K. rewrite forget_run in K.
    pose proof (@passthrough_sync _ OpencodeService.getProviders st K H) as S.
    now destruct (service OpencodeService.getProviders st).
  - unfold getModels, bind, ret.
    pose proof (service_keeps_session GetModels (opencodeService st)) as K.
    cbn [run] in K. rewrite forget_run in K.
    pose proof (@passthrough_sync _ (OpencodeService.getModels toLocaleString)
                  st K H) as S.
    now destruct (service (OpencodeService.getModels toLocaleString) st).
  - apply passthrough_sync; [|exact H].
    kept_by (GetMessages (remote := remote) (unknown := unknown) sessionId_) (opencodeService st).
  - apply passthrough_sync; [|exact H].
    kept_by (ListSessions (remote := remote) (unknown := unknown)) (opencodeService st).
  - unfold inSync in *.
    pose proof (deleteSession_pointer sessionId_ (opencodeService st)) as D.
    assert (E : isCurrent (self st) sessionId_
                = OpencodeService.isCurrent
                    (OpencodeService.svc (opencodeService st)) sessionId_)
      by (unfold isCurrent, OpencodeService.isCurrent; now rewrite H).
    unfold deleteSession, bind, service, me, assign, ret.
    destruct (OpencodeService.deleteSession sessionId_ (opencodeService st))
      as [deleted w']. cbn [fst snd self opencodeService] in *.
    rewrite E.
    destruct deleted,
      (OpencodeService.isCurrent (OpencodeService.svc (opencodeService st))
         sessionId_); cbn in *; congruence.
  - unfold inSync, cleanup, bind, assign.
    destruct (service_run OpencodeService.cleanup st) as [S1 S2].
    destruct (service OpencodeService.cleanup st) as [u st1].
    cbn [snd] in *. cbn. rewrite S2.
    now destruct (service_cleanup_releases (opencodeService st)) as [_ ->].
Qed.

(** *** Teardown and construction *)

Lemma service_createSession_offline title
  (w : OpencodeService.World remote unknown) :
  OpencodeService.client (OpencodeService.svc w) = None ->
  OpencodeService.createSession title w
  = (None,
     {| OpencodeService.svc := OpencodeService.svc w;
        OpencodeService.net := OpencodeService.net w;
        OpencodeService.log :=
          (OpencodeService.log w
           ++ [OpencodeService.ConsoleError
                 "[OpenCode] Client not initialized"])%list |}).
Proof. intros C. open_service. now rewrite C. Qed.

Lemma query_offline prompt images_ history queryOptions st :
  currentSessionId (self st) = None ->
  OpencodeService.client (OpencodeService.svc (opencodeService st)) = None ->
  query prompt images_ history queryOptions st
  = ([Error "Failed to create OpenCode session"],
     {| self := self st;
        opencodeService :=
          {| OpencodeService.svc := OpencodeService.svc (opencodeService st);
             OpencodeService.net := OpencodeService.net (opencodeService st);
             OpencodeService.log :=
               (OpencodeService.log (opencodeService st)
                ++ [OpencodeService.ConsoleError
                      "[OpenCode] Client not initialized"])%list |} |}).
Proof.
  intros B C. unfold query, bind, me. rewrite B. cbn [truthy negb].
  unfold createSession, bind, service, assign, ret.
  now rewrite (service_createSession_offline None _ C).
Qed.

(** After [cleanup()] the adapter has no session, no approval callback and
    a service without client; a [query] on it yields the single error chunk
    of a failed session creation and sends nothing to the server. *)
Theorem cleaned_up_adapter_fails_fast prompt images_ history queryOptions st :
  let st1 := snd (cleanup st) in
  let run := query prompt images_ history queryOptions st1 in
  currentSessionId (self st1) = None
  /\ approvalCallback (self st1) = None
  /\ OpencodeService.client (OpencodeService.svc (opencodeService st1)) = None
  /\ fst run = [Error "Failed to create OpenCode session"]
  /\ OpencodeService.net (opencodeService (snd run))
     = OpencodeService.net (opencodeService st1)
  /\ OpencodeService.log (opencodeService (snd run))
     = (OpencodeService.log (opencodeService st1)
        ++ [OpencodeService.ConsoleError
              "[OpenCode] Client not initialized"])%list.
Proof.
  cbn zeta.
  assert (S : currentSessionId (self (snd (cleanup st))) = None
              /\ approvalCallback (self (snd (cleanup st))) = None
              /\ OpencodeService.client
                   (OpencodeService.svc (opencodeService (snd (cleanup st))))
                 = None).
  { unfold cleanup, bind, assign.
    destruct (service_run OpencodeService.cleanup st) as [S1 S2].
    destruct (service OpencodeService.cleanup st) as [u st1].
    cbn [snd] in *. cbn. repeat split. rewrite S2.
    now destruct (service_cleanup_releases (opencodeService st)) as [-> _]. }
  destruct S as [B [A C]].
  rewrite (query_offline prompt images_ history queryOptions _ B C).
  repeat split; assumption.
Qed.

(** *** An adapter whose service has no client *)

Lemma service_idle (k : Call) (w : OpencodeService.World remote unknown) :
  match k with Initialize (Resolved _) => False | _ => True end ->
  OpencodeService.client (OpencodeService.svc w) = None ->
  OpencodeService.client
    (OpencodeService.svc (snd (run toLocaleString k w))) = None
  /\ OpencodeService.net (snd (run toLocaleString k w))
     = OpencodeService.net w.
Proof.
  intros K C.
  destruct k as [[c|e]| | | | | | | | | | | | | |];
    try contradiction;
    try (match goal with
         | |- context [run _ ?k w] =>
             pose proof (@run_offline _ _ toLocaleString k w eq_refl C) as X
         end;
         cbn zeta in X; destruct X as [C' [N' _]]; split; assumption).
  cbn. split; [assumption|reflexivity].
Qed.

Lemma query_unbound_offline prompt images_ history queryOptions st :
  truthy (currentSessionId (self st)) = false ->
  OpencodeService.client (OpencodeService.svc (opencodeService st)) = None ->
  query prompt images_ history queryOptions st
  = ([Error "Failed to create OpenCode session"],
     {| self := self st;
        opencodeService :=
          {| OpencodeService.svc := OpencodeService.svc (opencodeService st);
             OpencodeService.net := OpencodeService.net (opencodeService st);
             OpencodeService.log :=
               (OpencodeService.log (opencodeService st)
                ++ [OpencodeService.ConsoleError
                      "[OpenCode] Client not initialized"])%list |} |}).
Proof.
  intros T C. unfold query, bind, me. rewrite T. cbn [truthy negb].
  unfold createSession, bind, service, assign, ret.
  now rewrite (service_createSession_offline None _ C).
Qed.

Lemma query_bound_offline prompt images_ history queryOptions st :
  truthy (currentSessionId (self st)) = true ->
  OpencodeService.client (OpencodeService.svc (opencodeService st)) = None ->
  fst (query prompt images_ history queryOptions st)
  = [Error "Unknown error"].
Proof.
  intros T C. rewrite (query_bound prompt images_ history queryOptions st T).
  rewrite forward_chunks.
  now rewrite (query_uninitialised _ _ _ C).
Qed.

Ltac idle_by k st C :=
  let X := fresh in
  pose proof (@service_idle k (opencodeService st) I C) as X;
  cbn [run] in X; rewrite ?forget_run in X;
  open_adapter; unfold service;
  repeat match goal with
         | |- context [let (_, _) := ?m (opencodeService st) in _] =>
             destruct (m (opencodeService st))
         end;
  cbn [fst snd self opencodeService] in *;
  try match goal with
      | |- context [if ?b then _ else _] => destruct b
      end;
  exact X.

Lemma act_idle (a : Action) st :
  connects (Acting a) = false ->
  OpencodeService.client (OpencodeService.svc (opencodeService st)) = None ->
  OpencodeService.client
    (OpencodeService.svc (opencodeService (snd (act toLocaleString a st))))
  = None
  /\ OpencodeService.net (opencodeService (snd (act toLocaleString a st)))
     = OpencodeService.net (opencodeService st).
Proof.
  intros K C.
  destruct a; cbn [act]; rewrite ?discard_run.
  - destruct sdk as [c|e]; [discriminate K|].
    idle_by (Initialize (remote := remote) (unknown := unknown) (Rejected e))
            st C.
  - idle_by (HealthCheck (remote := remote) (unknown := unknown)) st C.
  - now split.
  - now split.
  - unfold createSession, bind, service, assign, ret.
    rewrite (service_createSession_offline title _ C). now split.
  - idle_by (SetSessionId (remote := remote) (unknown := unknown) i) st C.
  - destruct (truthy (currentSessionId (self st))) eqn:T.
    + rewrite (query_bound prompt images_ history queryOptions st T).
      idle_by (Query (remote := remote) (unknown := unknown) prompt
                 (Some (serviceOptions (self st) images_ queryOptions)))
              st C.
    + rewrite (query_unbound_offline prompt images_ history queryOptions
                 st T C).
      now split.
  - idle_by (Abort (remote := remote) (unknown := unknown)) st C.
  - idle_by (SetSessionId (remote := remote) (unknown := unknown) None) st C.
  - idle_by (GetProviders (remote := remote) (unknown := unknown)) st C.
  - idle_by (GetModels (remote := remote) (unknown := unknown)) st C.
  - idle_by (GetMessages (remote := remote) (unknown := unknown) sessionId_)
            st C.
  - idle_by (ListSessions (remote := remote) (unknown := unknown)) st C.
  - idle_by (DeleteSession (remote := remote) (unknown := unknown) sessionId_)
            st C.
  - idle_by (Cleanup (remote := remote) (unknown := unknown)) st C.
Qed.

Lemma invoke_idle (i : Invocation) st :
  connects i = false ->
  OpencodeService.client (OpencodeService.svc (opencodeService st)) = None ->
  OpencodeService.client
    (OpencodeService.svc
       (opencodeService (snd (invoke toLocaleString numberToString i st))))
  = None
  /\ OpencodeService.net
       (opencodeService (snd (invoke toLocaleString numberToString i st)))
     = OpencodeService.net (opencodeService st).
Proof.
  intros K C.
  destruct i as [a| | | | | | | | | |]; cbn [invoke]; rewrite ?discard_run;
    try (now split).
  - now apply act_idle.
  - unfold cancel.
    idle_by (Abort (remote := remote) (unknown := unknown)) st C.
Qed.

Lemma invokeAll_idle (calls : list Invocation) st :
  forallb (fun i => negb (connects i)) calls = true ->
  OpencodeService.client (OpencodeService.svc (opencodeService st)) = None ->
  OpencodeService.client
    (OpencodeService.svc
       (opencodeService
          (snd (invokeAll toLocaleString numberToString calls st))))
  = None
  /\ OpencodeService.net
       (opencodeService
          (snd (invokeAll toLocaleString numberToString calls st)))
     = OpencodeService.net (opencodeService st).
Proof.
  revert st. induction calls as [|i rest IH]; intros st K C.
  - now split.
  - cbn [forallb] in K. apply andb_true_iff in K as [K1 K2].
    apply negb_true_iff in K1.
    destruct (invoke_idle i st K1 C) as [C1 N1].
    cbn [invokeAll]. unfold bind.
    destruct (invoke toLocaleString numberToString i st) as [u st1].
    cbn [snd] in *.
    destruct (IH st1 K2 C1) as [C2 N2]. split; [exact C2|congruence].
Qed.

(** The factory builds, for the [opencode] backend, an adapter with no
    session bound over a service with no client and the configured (or
    default) address; on it [healthCheck()] is [false] and a [query] is the
    single error chunk of a failed session creation.  From then on, as
    long as no [initialize()] has succeeded, whatever public methods of the
    adapter are called in between, the service has no client, the server
    is left untouched, [healthCheck()] is [false] and every [query] yields
    a single error chunk: that of a failed session creation while the
    adapter's session id is [null] or empty, and [Unknown error] when it
    is a non-empty id (as after [setSessionId]).  For the other backend the
    factory throws. *)
Theorem factory_creates_idle_adapter
  (config : AgentServiceFactory.AgentBackendConfig) (net : remote)
  (log : list OpencodeService.Event) :
  match AgentServiceFactory.create (unknown := unknown) (callback := callback)
          config net log with
  | Resolved st =>
      AgentServiceFactory.backend config = AgentServiceFactory.Opencode
      /\ currentSessionId (self st) = None
      /\ OpencodeService.client (OpencodeService.svc (opencodeService st))
         = None
      /\ inSync st
      /\ fst (healthCheck st) = false
      /\ (forall prompt images_ history queryOptions,
            fst (query prompt images_ history queryOptions st)
            = [Error "Failed to create OpenCode session"])
      /\ (forall calls : list Invocation,
            forallb (fun i => negb (connects i)) calls = true ->
            let later :=
              snd (invokeAll toLocaleString numberToString calls st) in
            OpencodeService.client
              (OpencodeService.svc (opencodeService later)) = None
            /\ OpencodeService.net (opencodeService later) = net
            /\ fst (healthCheck later) = false
            /\ forall prompt images_ history queryOptions,
                 fst (query prompt images_ history queryOptions later)
                 = [Error
                      (if truthy (currentSessionId (self later))
                       then "Unknown error"
                       else "Failed to create OpenCode session")])
  | Rejected e =>
      AgentServiceFactory.backend config = AgentServiceFactory.ClaudeCode
      /\ error_message e
         = "Claude Code backend not yet adapted to IAgentService"
  end.
Proof.
  unfold AgentServiceFactory.create.
  destruct (AgentServiceFactory.backend config); [split; reflexivity|].
  assert (C : OpencodeService.client
                (AgentServiceFactory.newService (remote := remote)
                   (unknown := unknown)
                   (AgentServiceFactory.opencode config)) = None)
    by (unfold AgentServiceFactory.newService;
        now destruct (AgentServiceFactory.opencode config)).
  assert (S : OpencodeService.currentSessionId
                (AgentServiceFactory.newService (remote := remote)
                   (unknown := unknown)
                   (AgentServiceFactory.opencode config)) = None)
    by (unfold AgentServiceFactory.newService;
        now destruct (AgentServiceFactory.opencode config)).
  assert (H : forall st,
             OpencodeService.client
               (OpencodeService.svc (opencodeService st)) = None ->
             fst (healthCheck st) = false).
  { intros st K.
    unfold healthCheck, service, OpencodeService.healthCheck,
      OpencodeService.this, bind, ret. cbn. now rewrite K. }
  split; [reflexivity|]. split; [reflexivity|]. split; [exact C|].
  split; [unfold inSync; cbn; now rewrite S|].
  split; [now apply H|].
  split; [intros; now rewrite query_offline|].
  intros calls K. cbn zeta.
  match goal with
  | |- context [invokeAll _ _ calls ?st] =>
      destruct (invokeAll_idle calls st K C) as [C1 N1];
      destruct (invokeAll toLocaleString numberToString calls st)
        as [u later]
  end.
  cbn [snd] in *.
  split; [exact C1|]. split; [exact N1|]. split; [now apply H|].
  intros prompt images_ history queryOptions.
  destruct (truthy (currentSessionId (self later))) eqn:T.
  - now apply query_bound_offline.
  - now rewrite (query_unbound_offline prompt images_ history queryOptions
                   later T C1).
Qed.

(** *** Capability data through the adapter *)

(** The adapter's [getProviders()] returns one entry per provider of the
    service, in order and with the same ids, but never any model: every
    entry's model table is empty, and so is the table of defaults.  Its
    [getModels()] returns one item per model of the service, in order,
    with the same compound keys. *)
Theorem adapter_providers_carry_no_models st :
  let answer := fst (getProviders st) in
  map infoId (providers answer)
  = map id (fst (OpencodeService.getProviders (opencodeService st)))
  /\ Forall (fun info => infoModels info = []) (providers answer)
  /\ default answer = []
  /\ map itemValue (fst (getModels toLocaleString st))
     = map value
         (fst (OpencodeService.getModels toLocaleString (opencodeService st))).
Proof.
  cbn zeta. unfold getProviders, getModels, bind, service, ret.
  destruct (OpencodeService.getProviders (opencodeService st)) as [ps w1].
  destruct (OpencodeService.getModels toLocaleString (opencodeService st))
    as [ms w2].
  cbn [fst providers default]. repeat split.
  - rewrite map_map. reflexivity.
  - apply Forall_forall. intros info I.
    apply in_map_iff in I as [p [<- _]]. reflexivity.
  - rewrite map_map. reflexivity.
Qed.

End AdapterConduct.

(** * Properties of [migrationConstants.ts] *)

Unset Implicit Arguments.

Section MigrationProperties.

Import Text Migration EnvNotions.

Local Open Scope list_scope.

#[local] Arguments whitespace : simpl never.
#[local] Arguments assignment : simpl never.

(** *** Code-unit strings *)

Lemma eqb_eq (a b : text) : eqb a b = true <-> a = b.
Proof.
  revert b. induction a as [|x a IH]; intros [|y b]; cbn;
    try (split; [discriminate|discriminate]); [tauto|].
  rewrite andb_true_iff, N.eqb_eq, IH. split.
  - intros [-> ->]. reflexivity.
  - intros E. injection E as -> ->. auto.
Qed.

Lemma eqb_refl (a : text) : eqb a a = true.
Proof. now apply eqb_eq. Qed.

Lemma eqb_neq (a b : text) : eqb a b = false <-> a <> b.
Proof.
  split.
  - intros E H. apply eqb_eq in H. congruence.
  - intros H. destruct (eqb a b) eqn:E; [|reflexivity].
    apply eqb_eq in E. contradiction.
Qed.

Lemma trimStart_clean s :
  match trimStart s with
  | [] => True
  | c :: _ => whitespace c = false
  end.
Proof.
  induction s as [|c s IH]; [exact I|]. cbn.
  destruct (whitespace c) eqn:W; [exact IH|exact W].
Qed.

Lemma trimStart_fixed s :
  match s with [] => True | c :: _ => whitespace c = false end ->
  trimStart s = s.
Proof. destruct s as [|c s]; [reflexivity|]. cbn. now intros ->. Qed.

Lemma trimEnd_prefix s : exists dropped, s = trimEnd s ++ dropped.
Proof.
  induction s as [|c s [dropped IH]]; [now exists []|]. cbn.
  destruct (trimEnd s) as [|d kept] eqn:E.
  - destruct (whitespace c).
    + now exists (c :: s).
    + exists dropped. cbn in IH. now rewrite <- IH.
  - exists dropped. cbn. cbn in IH. now rewrite <- IH.
Qed.

Lemma trimEnd_idem s : trimEnd (trimEnd s) = trimEnd s.
Proof.
  induction s as [|c s IH]; [reflexivity|]. cbn.
  destruct (trimEnd s) as [|d kept] eqn:E.
  - destruct (whitespace c) eqn:W; [reflexivity|]. cbn. now rewrite W.
  - cbn. cbn in IH. now rewrite IH.
Qed.

Lemma trim_idem s : trim (trim s) = trim s.
Proof.
  unfold trim.
  assert (F : trimStart (trimEnd (trimStart s)) = trimEnd (trimStart s)).
  { apply trimStart_fixed.
    pose proof (trimStart_clean s) as C.
    destruct (trimEnd_prefix (trimStart s)) as [dropped P].
    destruct (trimEnd (trimStart s)) as [|c kept]; [exact I|].
    rewrite P in C. exact C. }
  now rewrite F, trimEnd_idem.
Qed.

Lemma includes_app c (a b : text) :
  includes c (a ++ b) = includes c a || includes c b.
Proof. unfold includes. apply existsb_app. Qed.

Lemma trimStart_includes c s :
  includes c s = false -> includes c (trimStart s) = false.
Proof.
  induction s as [|d s IH]; [reflexivity|]. cbn.
  intros H. destruct (whitespace d); [|exact H].
  apply IH. cbn in H. now apply orb_false_iff in H.
Qed.

Lemma trimEnd_includes c s :
  includes c s = false -> includes c (trimEnd s) = false.
Proof.
  intros H. destruct (trimEnd_prefix s) as [dropped P].
  rewrite P, includes_app in H. now apply orb_false_iff in H.
Qed.

Lemma trim_includes c s :
  includes c s = false -> includes c (trim s) = false.
Proof. intros H. now apply trimEnd_includes, trimStart_includes. Qed.

Lemma split_nonempty sep s : split sep s <> [].
Proof.
  destruct s as [|c s]; cbn; [discriminate|].
  destruct (N.eqb c sep); [discriminate|].
  destruct (split sep s); discriminate.
Qed.

Lemma split_segments sep s :
  Forall (fun seg => includes sep seg = false) (split sep s).
Proof.
  induction s as [|c s IH]; cbn.
  - repeat constructor.
  - destruct (N.eqb c sep) eqn:E.
    + constructor; [reflexivity|exact IH].
    + destruct (split sep s) as [|seg segs];
        [repeat constructor; cbn; now rewrite N.eqb_sym, E|].
      inversion IH as [|? ? Hseg Hsegs]; subst.
      constructor; [|exact Hsegs].
      cbn. now rewrite N.eqb_sym, E.
Qed.

Lemma split_free sep s : includes sep s = false -> split sep s = [s].
Proof.
  induction s as [|c s IH]; [reflexivity|]. cbn. intros H.
  apply orb_false_iff in H as [Hc Hs]. rewrite N.eqb_sym in Hc.
  now rewrite Hc, (IH Hs).
Qed.

Lemma split_app sep a b :
  includes sep a = false ->
  split sep (a ++ sep :: b) = a :: split sep b.
Proof.
  induction a as [|c a IH]; cbn; intros H.
  - now rewrite N.eqb_refl.
  - apply orb_false_iff in H as [Hc Ha]. rewrite N.eqb_sym in Hc.
    now rewrite Hc, (IH Ha).
Qed.

Lemma split_join sep lines :
  lines <> [] ->
  Forall (fun line => includes sep line = false) lines ->
  split sep (join sep lines) = lines.
Proof.
  induction lines as [|line more IH]; [congruence|]. intros _ F.
  inversion F as [|? ? Hline Hmore]; subst.
  destruct more as [|next more].
  - cbn. now apply split_free.
  - change (join sep (line :: next :: more))
      with (line ++ sep :: join sep (next :: more)).
    rewrite split_app by exact Hline. f_equal.
    apply IH; [discriminate|exact Hmore].
Qed.

(** [indexOf] finds the first occurrence. *)
Lemma indexOf_found c s pre post :
  includes c pre = false -> s = pre ++ c :: post ->
  indexOf c s = Z.of_nat (length pre).
Proof.
  revert s. induction pre as [|d pre IH]; intros s H ->; cbn.
  - now rewrite N.eqb_refl.
  - cbn in H. apply orb_false_iff in H as [Hd Hpre].
    rewrite N.eqb_sym in Hd. rewrite Hd.
    rewrite (IH _ Hpre eq_refl).
    destruct (Z.of_nat (length pre)) eqn:E; lia.
Qed.

Lemma indexOf_cut c s :
  (0 <= indexOf c s)%Z ->
  exists pre post,
    s = pre ++ c :: post /\ includes c pre = false
    /\ indexOf c s = Z.of_nat (length pre).
Proof.
  induction s as [|d s IH]; cbn; [lia|].
  destruct (N.eqb d c) eqn:E.
  - intros _. apply N.eqb_eq in E as ->. now exists [], s.
  - intros H.
    destruct (indexOf c s) as [|i|i] eqn:I; try lia.
    + destruct IH as [pre [post [-> [F L]]]]; [lia|].
      exists (d :: pre), post. cbn. rewrite N.eqb_sym, E.
      repeat split; try assumption. lia.
    + destruct IH as [pre [post [-> [F L]]]]; [lia|].
      exists (d :: pre), post. cbn. rewrite N.eqb_sym, E.
      repeat split; try assumption. lia.
Qed.

Lemma slices_found c pre post :
  sliceTo (Z.of_nat (length pre)) (pre ++ c :: post) = pre
  /\ sliceFrom (Z.of_nat (length pre) + 1) (pre ++ c :: post) = post.
Proof.
  unfold sliceTo, sliceFrom. split.
  - rewrite Nat2Z.id, firstn_app, Nat.sub_diag, firstn_all. cbn.
    now rewrite app_nil_r.
  - replace (Z.to_nat (Z.of_nat (length pre) + 1)) with (length pre + 1)%nat
      by lia.
    rewrite skipn_app, skipn_all2 by lia.
    replace (length pre + 1 - length pre)%nat with 1%nat by lia.
    reflexivity.
Qed.

(** *** Reading one line *)

(** What a line that assigns has in it. *)
Lemma parseLine_some line key val :
  parseLine line = Some (key, val) ->
  assignment key val = trim line
  /\ truthy key = true
  /\ includes equals key = false
  /\ startsWith hash key = false.
Proof.
  unfold parseLine. cbn zeta.
  destruct (negb (truthy (trim line)) || startsWith hash (trim line)) eqn:G;
    [discriminate|].
  apply orb_false_iff in G as [T H].
  destruct (0 <? indexOf equals (trim line))%Z eqn:P; [|discriminate].
  apply Z.ltb_lt in P.
  destruct (indexOf_cut equals (trim line)) as [pre [post [E [F L]]]]; [lia|].
  rewrite L. rewrite E at 1 2.
  destruct (slices_found equals pre post) as [-> ->].
  intros K. injection K as <- <-.
  split; [now rewrite E|].
  destruct pre as [|c pre]; [cbn in L; lia|].
  repeat split; try assumption.
  rewrite E in H. exact H.
Qed.

Lemma parseLine_trim line : parseLine (trim line) = parseLine line.
Proof. unfold parseLine. now rewrite trim_idem. Qed.

Lemma parseLine_stable line entry :
  includes newline line = false ->
  parseLine line = Some entry -> stable entry.
Proof.
  destruct entry as [key val]. intros N P.
  destruct (parseLine_some _ _ _ P) as [A _].
  unfold stable. cbn [fst snd]. rewrite A. split.
  - now apply trim_includes.
  - now rewrite parseLine_trim.
Qed.

Lemma assignment_reads key val :
  truthy key = true -> includes equals key = false ->
  indexOf equals (assignment key val) = Z.of_nat (length key)
  /\ (0 < Z.of_nat (length key))%Z
  /\ keyOfLine (assignment key val) = key
  /\ sliceFrom (Z.of_nat (length key) + 1) (assignment key val) = val
  /\ startsWith hash (assignment key val) = startsWith hash key.
Proof.
  intros T F. unfold assignment, keyOfLine.
  rewrite (indexOf_found equals (key ++ equals :: val) key val F eq_refl).
  destruct (slices_found equals key val) as [A B].
  repeat split; try assumption.
  - destruct key; [discriminate T|cbn; lia].
  - destruct key; [discriminate T|reflexivity].
Qed.

Lemma plain_stable entry : plain entry = true -> stable entry.
Proof.
  destruct entry as [key val]. unfold plain, stable. cbn [fst snd].
  rewrite !andb_true_iff, !negb_true_iff, eqb_eq.
  intros [[[[T F] H] N] E]. split; [exact N|].
  destruct (assignment_reads key val T F) as [I [P [_ [V S]]]].
  unfold parseLine. cbn zeta. rewrite E, S, H, I.
  assert (Ta : truthy (assignment key val) = true)
    by (unfold assignment; destruct key; [discriminate T|reflexivity]).
  rewrite Ta. cbn [negb orb].
  apply Z.ltb_lt in P. rewrite P, V.
  unfold sliceTo, assignment.
  now rewrite Nat2Z.id, firstn_app, Nat.sub_diag, firstn_all, app_nil_r.
Qed.

Lemma stable_reads entry :
  stable entry ->
  trim (assignment (fst entry) (snd entry)) = assignment (fst entry) (snd entry)
  /\ (0 < indexOf equals (assignment (fst entry) (snd entry)))%Z
  /\ startsWith hash (assignment (fst entry) (snd entry)) = false
  /\ keyOfLine (assignment (fst entry) (snd entry)) = fst entry.
Proof.
  destruct entry as [key val]. cbn [fst snd]. intros [_ P].
  destruct (parseLine_some _ _ _ P) as [A [T [F H]]].
  destruct (assignment_reads key val T F) as [I [L [K [_ S]]]].
  split; [now symmetry|]. split; [now rewrite I|].
  split; [now rewrite S|exact K].
Qed.

(** *** The map *)

Lemma set_fresh key val (m : envMap) :
  ~ In key (map fst m) -> set key val m = m ++ [(key, val)].
Proof.
  induction m as [|[k v] m IH]; cbn; intros N; [reflexivity|].
  destruct (eqb k key) eqn:E.
  - apply eqb_eq in E. tauto.
  - rewrite IH; tauto.
Qed.

Lemma set_keys key val (m : envMap) :
  map fst (set key val m)
  = if existsb (fun k => eqb k key) (map fst m)
    then map fst m else map fst m ++ [key].
Proof.
  induction m as [|[k v] m IH]; cbn; [reflexivity|].
  destruct (eqb k key) eqn:E; cbn; [reflexivity|].
  rewrite IH. now destruct (existsb _ (map fst m)).
Qed.

Lemma set_NoDup key val (m : envMap) :
  NoDup (map fst m) -> NoDup (map fst (set key val m)).
Proof.
  intros N. rewrite set_keys.
  destruct (existsb (fun k => eqb k key) (map fst m)) eqn:E; [exact N|].
  apply NoDup_app; [exact N|repeat constructor; exact (fun x => x)|].
  intros k I [K|[]]. subst k.
  assert (X : existsb (fun k0 => eqb k0 key) (map fst m) = true)
    by (apply existsb_exists; exists key; split; [exact I|apply eqb_refl]).
  congruence.
Qed.

Lemma set_stable key val (m : envMap) :
  stable (key, val) -> Forall stable m -> Forall stable (set key val m).
Proof.
  intros S. induction m as [|[k v] m IH]; cbn; intros F.
  - constructor; [exact S|constructor].
  - inversion F as [|? ? Hk Hm]; subst.
    destruct (eqb k key) eqn:E.
    + apply eqb_eq in E as ->. now constructor.
    + constructor; [exact Hk|now apply IH].
Qed.

Lemma get_set key key' val (m : envMap) :
  get key (set key' val m) = if eqb key' key then Some val else get key m.
Proof.
  induction m as [|[k v] m IH]; cbn.
  - destruct (eqb key' key); reflexivity.
  - destruct (eqb k key') eqn:E; cbn.
    + apply eqb_eq in E as ->. now destruct (eqb key' key).
    + rewrite IH. destruct (eqb key' key) eqn:E'; [|reflexivity].
      apply eqb_eq in E' as ->. now rewrite E.
Qed.

Lemma step_tidy (m : envMap) line :
  includes newline line = false -> tidy m -> tidy (step m line).
Proof.
  intros N [D F]. unfold step.
  destruct (parseLine line) as [[key val]|] eqn:P; [|now split].
  split; [now apply set_NoDup|].
  apply set_stable; [|exact F]. exact (parseLine_stable _ _ N P).
Qed.

Lemma fold_tidy lines (m : envMap) :
  Forall (fun line => includes newline line = false) lines ->
  tidy m -> tidy (fold_left step lines m).
Proof.
  revert m. induction lines as [|line more IH]; intros m F T; [exact T|].
  inversion F as [|? ? Hline Hmore]; subst. cbn.
  apply IH; [exact Hmore|]. now apply step_tidy.
Qed.

Lemma absorb_tidy (m : envMap) s : tidy m -> tidy (absorb m s).
Proof. intros T. apply fold_tidy; [apply split_segments|exact T]. Qed.

Lemma tidy_empty : tidy [].
Proof. split; constructor. Qed.

Lemma fold_assignments (m more : envMap) :
  NoDup (map fst (m ++ more)) -> Forall stable more ->
  fold_left step
    (map (fun entry => assignment (fst entry) (snd entry)) more) m
  = m ++ more.
Proof.
  revert m. induction more as [|[key val] more IH]; intros m D F; cbn.
  - now rewrite app_nil_r.
  - inversion F as [|? ? [_ P] Hmore]; subst. cbn [fst snd] in P.
    unfold step at 2. cbn [fst snd]. rewrite P.
    assert (N : ~ In key (map fst m)).
    { rewrite map_app in D. cbn in D. apply NoDup_remove_2 in D.
      intros I. apply D, in_or_app. now left. }
    rewrite (set_fresh _ _ _ N).
    rewrite IH; [now rewrite <- app_assoc|now rewrite <- app_assoc|exact Hmore].
Qed.

Lemma render_lines (m : envMap) :
  m <> [] -> Forall stable m ->
  split newline (render m)
  = map (fun entry => assignment (fst entry) (snd entry)) m.
Proof.
  intros N F. unfold render. apply split_join.
  - destruct m; [congruence|discriminate].
  - apply Forall_forall. intros line I.
    apply in_map_iff in I as [entry [<- I]].
    rewrite Forall_forall in F. now destruct (F entry I).
Qed.

(** Reading back what was written gives the map that was written. *)
Lemma absorb_render (m : envMap) : tidy m -> absorb [] (render m) = m.
Proof.
  intros [D F]. destruct m as [|entry m]; [reflexivity|].
  unfold absorb. rewrite render_lines; [|discriminate|exact F].
  now apply (fold_assignments []).
Qed.

Lemma absorb_nothing (m : envMap) : absorb m [] = m.
Proof. reflexivity. Qed.

Lemma get_fold key lines (m : envMap) :
  get key (fold_left step lines m)
  = match get key (fold_left step lines []) with
    | Some val => Some val
    | None => get key m
    end.
Proof.
  revert m. induction lines as [|line more IH]; intros m; [reflexivity|].
  cbn [fold_left]. rewrite (IH (step m line)), (IH (step [] line)).
  destruct (get key (fold_left step more [])); [reflexivity|].
  unfold step. destruct (parseLine line) as [[k v]|]; [|reflexivity].
  rewrite !get_set. now destruct (eqb k key).
Qed.

Lemma merged_tidy existing additional :
  tidy (absorb (absorb [] existing) additional).
Proof. apply absorb_tidy, absorb_tidy, tidy_empty. Qed.

(** *** [mergeEnvironmentVariables] *)

(** The result of a merge is in normal form: merging it with the empty
    string, on either side, gives it back unchanged. *)
Theorem merge_is_normal_form existing additional :
  let merged := mergeEnvironmentVariables existing additional in
  mergeEnvironmentVariables merged [] = merged
  /\ mergeEnvironmentVariables [] merged = merged.
Proof.
  cbn zeta. unfold mergeEnvironmentVariables.
  pose proof (merged_tidy existing additional) as T.
  rewrite !absorb_nothing, (absorb_render _ T). split; reflexivity.
Qed.

(** Reading a key from the merged string gives the value its last
    assignment in [additional] gives it, and otherwise the value its last
    assignment in [existing] gives it; a key assigned in neither is not in
    the result. *)
Theorem merge_later_wins existing additional key :
  valueOf key (mergeEnvironmentVariables existing additional)
  = match valueOf key additional with
    | Some val => Some val
    | None => valueOf key existing
    end.
Proof.
  unfold valueOf, mergeEnvironmentVariables.
  rewrite (absorb_render _ (merged_tidy existing additional)).
  unfold absorb at 1. now rewrite get_fold.
Qed.

(** A non-empty merge result consists of assignment lines only: no line
    has white space at either end, none is a comment, each has a non-empty
    key before its first [=], and no two lines assign the same key. *)
Theorem merge_output_is_clean existing additional :
  let merged := mergeEnvironmentVariables existing additional in
  merged <> [] ->
  Forall (fun line =>
            trim line = line
            /\ startsWith hash line = false
            /\ (0 < indexOf equals line)%Z)
         (split newline merged)
  /\ NoDup (map keyOfLine (split newline merged)).
Proof.
  cbn zeta. unfold mergeEnvironmentVariables.
  destruct (merged_tidy existing additional) as [D F].
  set (m := absorb (absorb [] existing) additional) in *.
  intros N.
  assert (M : m <> []) by (intros E; rewrite E in N; now apply N).
  rewrite (render_lines _ M F). split.
  - apply Forall_forall. intros line I.
    apply in_map_iff in I as [entry [<- I]].
    rewrite Forall_forall in F.
    destruct (stable_reads _ (F entry I)) as [A [B [C _]]]. auto.
  - rewrite map_map.
    replace (map (fun entry => keyOfLine (assignment (fst entry) (snd entry))) m)
      with (map fst m); [exact D|].
    apply map_ext_in. intros entry I.
    rewrite Forall_forall in F.
    now destruct (stable_reads _ (F entry I)) as [_ [_ [_ ->]]].
Qed.

(** *** [convertEnvObjectToString] *)

Lemma assignments_strings entries :
  assignments entries
  = map (fun entry => assignment (fst entry) (snd entry)) (strings entries).
Proof.
  induction entries as [|[key [val|]] rest IH]; cbn; congruence.
Qed.

Lemma convert_renders entries :
  convertEnvObjectToString (Some entries) = render (strings entries).
Proof.
  unfold convertEnvObjectToString, render. now rewrite assignments_strings.
Qed.

Lemma plain_tidy (m : envMap) :
  NoDup (map fst m) -> forallb plain m = true -> tidy m.
Proof.
  intros D P. split; [exact D|].
  apply Forall_forall. intros entry I.
  rewrite forallb_forall in P. now apply plain_stable, P.
Qed.

(** An [env] object whose string entries are plain is carried over
    faithfully: its string form assigns to each key the value the object
    has for it, merging it into an environment string makes these values
    win over the string's own, and on its own it is already in normal
    form.  An absent object, or one without string entries, gives the
    empty string, which changes nothing in a merge. *)
Theorem env_object_round_trip entries existing key :
  NoDup (map fst (strings entries)) ->
  forallb plain (strings entries) = true ->
  valueOf key (convertEnvObjectToString (Some entries))
  = get key (strings entries)
  /\ valueOf key (mergeEnvironmentVariables existing
                    (convertEnvObjectToString (Some entries)))
     = match get key (strings entries) with
       | Some val => Some val
       | None => valueOf key existing
       end
  /\ mergeEnvironmentVariables [] (convertEnvObjectToString (Some entries))
     = convertEnvObjectToString (Some entries)
  /\ mergeEnvironmentVariables existing (convertEnvObjectToString None)
     = mergeEnvironmentVariables existing [].
Proof.
  intros D P. pose proof (plain_tidy _ D P) as T.
  assert (V : valueOf key (convertEnvObjectToString (Some entries))
              = get key (strings entries)).
  { unfold valueOf. now rewrite convert_renders, (absorb_render _ T). }
  split; [exact V|]. split; [|split].
  - unfold valueOf, mergeEnvironmentVariables.
    rewrite (absorb_render _ (merged_tidy _ _)).
    unfold absorb at 1. rewrite get_fold.
    change (fold_left step
              (split newline (convertEnvObjectToString (Some entries))) [])
      with (absorb [] (convertEnvObjectToString (Some entries))).
    fold (valueOf key (convertEnvObjectToString (Some entries))).
    now rewrite V.
  - unfold mergeEnvironmentVariables.
    rewrite absorb_nothing, convert_renders. now rewrite (absorb_render _ T).
  - reflexivity.
Qed.

(** *** The field tables *)

Lemma has_In set field : has set field = true <-> In field set.
Proof.
  unfold has. rewrite existsb_exists. split.
  - intros [f [I E]]. apply String.eqb_eq in E. now subst.
  - intros I. exists field. split; [exact I|apply String.eqb_refl].
Qed.

(** The three tables fit together: every field stripped from the shared
    settings is either migrated or deprecated, never both; every migrated
    field except [env] is one of the stripped fields; and no table lists a
    field twice. *)
Theorem field_tables_are_consistent :
  (forall field,
     In field CLAUDIAN_ONLY_FIELDS ->
     In field MIGRATABLE_CLAUDIAN_FIELDS \/ In field DEPRECATED_FIELDS)
  /\ (forall field,
        In field DEPRECATED_FIELDS ->
        In field CLAUDIAN_ONLY_FIELDS
        /\ ~ In field MIGRATABLE_CLAUDIAN_FIELDS)
  /\ (forall field,
        In field MIGRATABLE_CLAUDIAN_FIELDS ->
        field = "env"%string \/ In field CLAUDIAN_ONLY_FIELDS)
  /\ ~ In "env"%string CLAUDIAN_ONLY_FIELDS
  /\ NoDup CLAUDIAN_ONLY_FIELDS
  /\ NoDup MIGRATABLE_CLAUDIAN_FIELDS
  /\ NoDup DEPRECATED_FIELDS.
Proof.
  assert (A : forallb (fun f => has MIGRATABLE_CLAUDIAN_FIELDS f
                                || has DEPRECATED_FIELDS f)
                CLAUDIAN_ONLY_FIELDS = true) by reflexivity.
  assert (B : forallb (fun f => has CLAUDIAN_ONLY_FIELDS f
                                && negb (has MIGRATABLE_CLAUDIAN_FIELDS f))
                DEPRECATED_FIELDS = true) by reflexivity.
  assert (C : forallb (fun f => String.eqb f "env"
                                || has CLAUDIAN_ONLY_FIELDS f)
                MIGRATABLE_CLAUDIAN_FIELDS = true) by reflexivity.
  rewrite forallb_forall in A, B, C.
  split; [|split; [|split; [|split; [|split; [|split]]]]].
  - intros f I. specialize (A f I). apply orb_true_iff in A.
    now rewrite !has_In in A.
  - intros f I. specialize (B f I). apply andb_true_iff in B as [B1 B2].
    apply negb_true_iff in B2. split; [now apply has_In|].
    intros M. apply has_In in M. congruence.
  - intros f I. specialize (C f I). apply orb_true_iff in C as [C|C].
    + left. now apply String.eqb_eq.
    + right. now apply has_In.
  - intros I. apply has_In in I. discriminate I.
  - repeat (constructor;
            [intros I; apply has_In in I; discriminate I|]).
    constructor.
  - repeat (constructor;
            [intros I; apply has_In in I; discriminate I|]).
    constructor.
  - repeat (constructor;
            [intros I; apply has_In in I; discriminate I|]).
    constructor.
Qed.

End MigrationProperties.

(** * Properties of [opencodeCli.ts] *)

Section ResolverProperties.

Import Text OpencodeCli CliNotions.

Local Open Scope list_scope.

Variable h : Host.

(** A path set for this host in the settings is returned trimmed, and
    failing that (no entry for the host, or a blank one) the legacy path
    is; in both cases the server URL is the default one and the file system
    is not consulted: the path is returned whether or not anything exists
    there.  When the settings have no entry for the host and the host name
    is a member of [Object.prototype], the property read yields that
    member and [resolve] throws instead of using the legacy path. *)
Theorem resolve_prefers_settings perHostPaths legacyPath envVars :
  (forall p,
     lookup (hostname h) perHostPaths = Some p -> truthy (trim p) = true ->
     resolve h perHostPaths legacyPath envVars
     = Some {| opencodeCliPath := Some (trim p);
               serverUrl := Some (lit "http://127.0.0.1:4096") |})
  /\ (match read (hostname h) perHostPaths with
      | Own p => truthy (trim p) = false
      | Missing => True
      | Inherited => False
      end ->
      truthy (trim legacyPath) = true ->
      resolve h perHostPaths legacyPath envVars
      = Some {| opencodeCliPath := Some (trim legacyPath);
                serverUrl := Some (lit "http://127.0.0.1:4096") |})
  /\ (lookup (hostname h) perHostPaths = None ->
      In (hostname h) inheritedNames ->
      resolve h perHostPaths legacyPath envVars = None).
Proof.
  split; [|split].
  - intros p L T.
    assert (P : present (Some (trim p)) = true) by exact T.
    unfold resolve, read. rewrite L. unfold resolveFrom.
    repeat (rewrite P; cbn beta iota). reflexivity.
  - intros N T.
    assert (P : present (Some (trim legacyPath)) = true) by exact T.
    unfold resolve.
    destruct (read (hostname h) perHostPaths) as [p| |]; [| contradiction |];
      unfold resolveFrom; cbn [present]; rewrite ?N, T; cbn beta iota;
      repeat (rewrite P; cbn beta iota); reflexivity.
  - intros L I. unfold resolve, read. rewrite L.
    assert (E : existsb (eqb (hostname h)) inheritedNames = true).
    { apply existsb_exists. exists (hostname h). split; [exact I|].
      clear. induction (hostname h) as [|c t IH]; cbn; [reflexivity|].
      now rewrite N.eqb_refl, IH. }
    now rewrite E.
Qed.

Lemma firstInPath_skips dir rest :
  usable h dir = false -> firstInPath h (dir :: rest) = firstInPath h rest.
Proof.
  unfold usable, candidate. cbn [firstInPath].
  destruct (truthy dir); [|reflexivity]. cbn [negb andb].
  destruct (existsSync h (join h [dir; executable h])); [|reflexivity].
  cbn [andb].
  destruct (isFile h (join h [dir; executable h])) as [[|]|];
    [discriminate|reflexivity|reflexivity].
Qed.

Lemma firstInPath_takes dir rest :
  usable h dir = true -> firstInPath h (dir :: rest) = Some (candidate h dir).
Proof.
  unfold usable, candidate. cbn [firstInPath].
  destruct (truthy dir); [|discriminate]. cbn [negb andb].
  destruct (existsSync h (join h [dir; executable h])); [|discriminate].
  cbn [andb].
  destruct (isFile h (join h [dir; executable h])) as [[|]|];
    [reflexivity|discriminate|discriminate].
Qed.

Lemma firstInPath_spec dirs :
  match firstInPath h dirs with
  | Some p =>
      exists before dir after,
        dirs = before ++ dir :: after
        /\ forallb (fun d => negb (usable h d)) before = true
        /\ usable h dir = true
        /\ p = candidate h dir
  | None => forallb (fun d => negb (usable h d)) dirs = true
  end.
Proof.
  induction dirs as [|dir rest IH]; [reflexivity|].
  destruct (usable h dir) eqn:U.
  - rewrite (firstInPath_takes dir rest U).
    exists [], dir, rest. repeat split. exact U.
  - rewrite (firstInPath_skips dir rest U).
    destruct (firstInPath h rest) as [p|].
    + destruct IH as [before [d [after [-> [B [Ud P]]]]]].
      exists (dir :: before), d, after. repeat split; try assumption.
      cbn [forallb]. now rewrite U.
    + cbn [forallb]. now rewrite U.
Qed.

(** [autoDetectFromPath()] returns the executable of the first directory
    of [PATH] that has one (a non-empty directory name whose candidate
    exists and is a regular file), skipping every directory before it that
    has none; it returns [null] exactly when no directory of [PATH] has
    one. *)
Theorem autoDetect_takes_first_usable :
  match autoDetectFromPath h with
  | Some p =>
      exists before dir after,
        pathDirs h = before ++ dir :: after
        /\ forallb (fun d => negb (usable h d)) before = true
        /\ usable h dir = true
        /\ p = candidate h dir
  | None => forallb (fun d => negb (usable h d)) (pathDirs h) = true
  end.
Proof.
  unfold autoDetectFromPath. fold (pathDirs h). apply firstInPath_spec.
Qed.

Lemma firstExisting_exists candidates p :
  firstExisting h candidates = Some p -> existsSync h p = true.
Proof.
  induction candidates as [|c rest IH]; cbn; [discriminate|].
  destruct (existsSync h c) eqn:E; [|exact IH].
  intros K. injection K as <-. exact E.
Qed.

Lemma firstCommon_exists locations p :
  firstCommon h locations = Some p -> existsSync h p = true.
Proof.
  induction locations as [|location rest IH]; cbn [firstCommon];
    [discriminate|].
  destruct (includes 42%N location).
  - destruct (firstExisting h (expandGlob h location)) as [expanded|] eqn:F;
      [|exact IH].
    intros K. injection K as <-. exact (firstExisting_exists _ _ F).
  - destruct (existsSync h location) eqn:E; [|exact IH].
    intros K. injection K as <-. exact E.
Qed.

Lemma autoDetect_exists p :
  autoDetectFromPath h = Some p -> existsSync h p = true.
Proof.
  intros A.
  pose proof (firstInPath_spec (pathDirs h)) as S.
  change (firstInPath h (pathDirs h)) with (autoDetectFromPath h) in S.
  rewrite A in S. destruct S as [before [dir [after [_ [_ [U ->]]]]]].
  unfold usable in U. apply andb_true_iff in U as [U _].
  now apply andb_true_iff in U as [_ U].
Qed.

(** When neither setting names a path, whatever non-empty path [resolve]
    returns was found on the file system, so [isInstalled] accepts it; and
    the server URL is given exactly when a path is returned.  [resolve]
    returns unless the host name, absent from the settings, is a member of
    [Object.prototype]. *)
Theorem detected_path_is_installed perHostPaths legacyPath envVars :
  unconfigured h perHostPaths legacyPath = true ->
  match resolve h perHostPaths legacyPath envVars with
  | Some resolved =>
      (present (opencodeCliPath resolved) = true ->
       isInstalled h (opencodeCliPath resolved) = true)
      /\ (present (opencodeCliPath resolved) = true ->
          serverUrl resolved = Some (lit "http://127.0.0.1:4096"))
      /\ (present (opencodeCliPath resolved) = false ->
          serverUrl resolved = None)
  | None =>
      lookup (hostname h) perHostPaths = None
      /\ In (hostname h) inheritedNames
  end.
Proof.
  unfold unconfigured. rewrite andb_true_iff, !negb_true_iff.
  intros [N T].
  assert (R : forall fromHost,
             present fromHost = false ->
             let resolved := resolveFrom h fromHost legacyPath in
             (present (opencodeCliPath resolved) = true ->
              isInstalled h (opencodeCliPath resolved) = true)
             /\ (present (opencodeCliPath resolved) = true ->
                 serverUrl resolved = Some (lit "http://127.0.0.1:4096"))
             /\ (present (opencodeCliPath resolved) = false ->
                 serverUrl resolved = None)).
  { intros fromHost B. cbn zeta. unfold resolveFrom. rewrite B, T.
    cbn [present opencodeCliPath serverUrl].
    destruct (present (autoDetectFromPath h)) eqn:A.
    - rewrite A. repeat split; try discriminate.
      intros _. unfold isInstalled. rewrite A.
      destruct (autoDetectFromPath h) as [p|] eqn:D; [|discriminate A].
      now apply autoDetect_exists.
    - destruct (present (checkCommonLocations h)) eqn:C;
        repeat split; try discriminate.
      intros _. unfold isInstalled. rewrite C.
      destruct (checkCommonLocations h) as [p|] eqn:D; [|discriminate C].
      exact (firstCommon_exists _ _ D). }
  unfold resolve, read.
  destruct (lookup (hostname h) perHostPaths) as [v|] eqn:L.
  - apply R. exact N.
  - destruct (existsb (eqb (hostname h)) inheritedNames) eqn:E.
    + split; [reflexivity|].
      apply existsb_exists in E as [name [I E]].
      apply eqb_eq in E. now subst.
    + now apply R.
Qed.

End ResolverProperties.

(** * The further properties on concrete cases *)

Section FurtherInstances.

Import OpencodeService Spec Notions Text Migration EnvNotions CliNotions.

Local Open Scope list_scope.

Lemma query_leaves_service_alone_witness :
  svc (snd (query "hello" None Demo.bound)) = svc Demo.bound.
Proof.
  exact (proj2 (proj2 (proj2 (proj2 (proj2
           (@query_leaves_service_alone nat unit "hello" None Demo.bound)))))
           eq_refl).
Defined.

Lemma offline_service_sends_nothing_witness :
  let w' := snd (performAll Demo.locale Cases.decimal
                   [Listed HealthCheck; Listed (CreateSession None);
                    ClearCache; Listed (Query "hi" None); GetServerUrl;
                    Listed GetProviders; Listed Cleanup] Demo.fresh) in
  client (svc w') = None /\ net w' = 0.
Proof.
  destruct (@offline_service_sends_nothing nat unit Demo.locale Cases.decimal
              [Listed HealthCheck; Listed (CreateSession None);
               ClearCache; Listed (Query "hi" None); GetServerUrl;
               Listed GetProviders; Listed Cleanup] Demo.fresh
              eq_refl eq_refl)
    as [C [N _]].
  split; [exact C|exact N].
Defined.

Lemma getProviders_memoises_successes_witness :
  fst (getProviders Demo.connected) = [Demo.anthropic]
  /\ getProviders (snd (getProviders Demo.connected))
     = ([Demo.anthropic], snd (getProviders Demo.connected)).
Proof.
  exact (@getProviders_memoises_successes nat unit Demo.connected
           Demo.server (Demo.counted [Demo.anthropic])
           eq_refl eq_refl eq_refl).
Defined.

Lemma failed_fetch_caches_empty_model_list_witness :
  let w1 := snd (getModels Demo.locale Demo.fresh) in
  let w2 := snd (runAll Demo.locale [Initialize (Resolved Demo.server)] w1) in
  fst (getModels Demo.locale Demo.fresh) = []
  /\ getModels Demo.locale w2 = ([], w2).
Proof.
  destruct (@failed_fetch_caches_empty_model_list nat unit Demo.locale
              Demo.fresh eq_refl eq_refl I) as [E [_ [_ Later]]].
  split; [exact E|].
  exact (Later [Initialize (Resolved Demo.server)]).
Defined.

Lemma colon_in_model_id_is_cut_witness :
  modelBody (Some "ollama:llama3:8b")
  = Some {| providerID := "ollama"; modelID := "llama3" |}
  /\ "llama3"%string <> "llama3:8b"%string
  /\ modelBody (Some "ollama::8b") = None.
Proof.
  destruct (@colon_in_model_id_is_cut "ollama" "llama3:8b"
              eq_refl eq_refl) as [B N].
  split; [exact B|]. split; [exact (N eq_refl)|].
  exact (proj1 (@colon_in_model_id_is_cut "ollama" ":8b" eq_refl eq_refl)).
Defined.


Lemma adapter_surfaces_response_witness :
  fst (OpencodeServiceWrapper.query "hello" None None None Demo.workingAdapter)
  = [ OpencodeServiceWrapper.Thinking "t1";
      OpencodeServiceWrapper.Text "answer";
      OpencodeServiceWrapper.Done ].
Proof.
  exact (@adapter_surfaces_response nat unit unit "hello" None None None
           Demo.workingAdapter "s1" Demo.server
           (fun _ _ => Demo.counted Demo.answer)
           [ {| partType := "reasoning"; partText := Some "t1" |};
             {| partType := "text"; partText := Some "answer" |} ]
           2 eq_refl eq_refl eq_refl eq_refl eq_refl).
Defined.

Lemma convertChunk_tags_witness :
  OpencodeServiceWrapper.convertChunk
    (OpencodeServiceWrapper.asRaw doneChunk)
  = OpencodeServiceWrapper.Done
  /\ OpencodeServiceWrapper.convertChunk
       (OpencodeServiceWrapper.asRaw (chunk "step-start" None))
     = OpencodeServiceWrapper.Text "".
Proof.
  split.
  - exact (proj2 (proj1 (convertChunk_tags
                           (OpencodeServiceWrapper.asRaw doneChunk)))
             eq_refl).
  - apply (proj2 (proj2 (convertChunk_tags
                           (OpencodeServiceWrapper.asRaw
                              (chunk "step-start" None))))).
    cbn. intros H. repeat (destruct H as [H|H]; [discriminate H|]).
    exact H.
Defined.

Lemma lazy_session_is_bound_and_used_witness :
  let st' := snd (OpencodeServiceWrapper.query "hello" None None None
                    Cases.idleAdapter) in
  OpencodeServiceWrapper.currentSessionId (OpencodeServiceWrapper.self st')
  = Some "s1"%string
  /\ currentSessionId (svc (OpencodeServiceWrapper.opencodeService st'))
     = Some "s1"%string.
Proof.
  destruct (@lazy_session_is_bound_and_used nat unit unit "hello" None None
              None Cases.idleAdapter Demo.server
              (fun _ => Demo.counted "s1"%string)
              (fun _ _ => Demo.counted Demo.answer) "s1" 1
              eq_refl eq_refl eq_refl eq_refl eq_refl eq_refl)
    as [A [S _]].
  split; [exact A|exact S].
Defined.

Lemma empty_session_id_is_a_failure_witness :
  let run := OpencodeServiceWrapper.query "hello" None None None
               Cases.anonymousAdapter in
  fst run = [OpencodeServiceWrapper.Error "Failed to create OpenCode session"]
  /\ currentSessionId
       (svc (OpencodeServiceWrapper.opencodeService (snd run)))
     = Some ""%string.
Proof.
  destruct (@empty_session_id_is_a_failure nat unit unit "hello" None None
              None Cases.anonymousAdapter Cases.anonymous
              (fun _ => Demo.counted ""%string) 1
              eq_refl eq_refl eq_refl eq_refl)
    as [E [_ [S _]]].
  split; [exact E|exact S].
Defined.

Lemma adapter_keeps_binding_in_sync_witness :
  inSync (snd (act Demo.locale (DoDeleteSession "s1") Demo.workingAdapter))
  /\ inSync (snd (act Demo.locale (DoQuery "hello" None None None)
                    Cases.idleAdapter)).
Proof.
  split.
  - exact (@adapter_keeps_binding_in_sync nat unit unit Demo.locale
             (DoDeleteSession "s1") Demo.workingAdapter eq_refl
             (fun F => F)).
  - apply (@adapter_keeps_binding_in_sync nat unit unit Demo.locale
             (DoQuery "hello" None None None) Cases.idleAdapter eq_refl).
    intros [_ E]. discriminate E.
Defined.

Lemma factory_creates_idle_adapter_witness :
  forallb (fun i => negb (connects i)) Cases.resuming = true
  /\ match AgentServiceFactory.create (remote := nat) (unknown := unit)
             (callback := unit) Cases.defaults 0 [] with
     | Resolved st =>
         fst (OpencodeServiceWrapper.query "hello" None None None st)
         = [OpencodeServiceWrapper.Error "Failed to create OpenCode session"]
         /\ fst (OpencodeServiceWrapper.query "hello" None None None
                   (snd (invokeAll Demo.locale Cases.decimal Cases.resuming
                           st)))
            = [OpencodeServiceWrapper.Error "Unknown error"]
     | Rejected _ => False
     end.
Proof.
  split; [reflexivity|].
  pose proof (@factory_creates_idle_adapter nat unit unit Demo.locale
                Cases.decimal Cases.defaults 0 []) as F.
  cbn [AgentServiceFactory.create AgentServiceFactory.backend Cases.defaults]
    in *.
  destruct F as (_ & _ & _ & _ & _ & Q & L).
  split; [apply Q|].
  exact (proj2 (proj2 (proj2 (L Cases.resuming eq_refl)))
           "hello" None None None).
Defined.

Lemma merge_output_is_clean_witness :
  NoDup (map keyOfLine
           (split newline
              (mergeEnvironmentVariables Cases.existingEnv
                 Cases.additionalEnv))).
Proof.
  apply (merge_output_is_clean Cases.existingEnv Cases.additionalEnv).
  discriminate.
Defined.

Lemma env_object_round_trip_witness :
  valueOf (lit "MY_VAR")
    (mergeEnvironmentVariables Cases.existingEnv
       (convertEnvObjectToString (Some Cases.envObject)))
  = Some (lit "a=b")
  /\ valueOf (lit "A")
       (mergeEnvironmentVariables Cases.existingEnv
          (convertEnvObjectToString (Some Cases.envObject)))
     = Some (lit "3").
Proof.
  assert (D : NoDup (map fst (strings Cases.envObject))).
  { repeat (constructor; [cbn; intros H;
                          repeat (destruct H as [H|H]; [discriminate H|]);
                          exact H|]).
    constructor. }
  split.
  - exact (proj1 (proj2 (env_object_round_trip Cases.envObject
                           Cases.existingEnv (lit "MY_VAR") D eq_refl))).
  - exact (proj1 (proj2 (env_object_round_trip Cases.envObject
                           Cases.existingEnv (lit "A") D eq_refl))).
Defined.

Lemma field_tables_are_consistent_witness :
  In "showToolUse"%string CLAUDIAN_ONLY_FIELDS
  /\ ~ In "showToolUse"%string MIGRATABLE_CLAUDIAN_FIELDS.
Proof.
  apply (proj1 (proj2 field_tables_are_consistent) "showToolUse"%string).
  cbn. tauto.
Defined.

Lemma resolve_prefers_settings_witness :
  OpencodeCli.resolve Cases.unix
    [(lit "desktop", lit "/a/opencode"); (lit "laptop", lit " /b/opencode ")]
    (lit "/legacy/opencode") []
  = Some {| OpencodeCli.opencodeCliPath := Some (lit "/b/opencode");
            OpencodeCli.serverUrl := Some (lit "http://127.0.0.1:4096") |}
  /\ OpencodeCli.resolve Cases.unix [(lit "desktop", lit "/a/opencode")]
       (lit "/legacy/opencode") []
     = Some {| OpencodeCli.opencodeCliPath := Some (lit "/legacy/opencode");
               OpencodeCli.serverUrl := Some (lit "http://127.0.0.1:4096") |}
  /\ OpencodeCli.resolve Cases.oddlyNamed [(lit "desktop", lit "/a/opencode")]
       (lit "/legacy/opencode") []
     = None.
Proof.
  split; [|split].
  - exact (proj1 (resolve_prefers_settings Cases.unix
                    [(lit "desktop", lit "/a/opencode");
                     (lit "laptop", lit " /b/opencode ")]
                    (lit "/legacy/opencode") [])
             (lit " /b/opencode ") eq_refl eq_refl).
  - exact (proj1 (proj2 (resolve_prefers_settings Cases.unix
                           [(lit "desktop", lit "/a/opencode")]
                           (lit "/legacy/opencode") []))
             I eq_refl).
  - apply (proj2 (proj2 (resolve_prefers_settings Cases.oddlyNamed
                           [(lit "desktop", lit "/a/opencode")]
                           (lit "/legacy/opencode") []))).
    + reflexivity.
    + left. reflexivity.
Defined.

Lemma detected_path_is_installed_witness :
  option_map OpencodeCli.opencodeCliPath
    (OpencodeCli.resolve Cases.unix [] (lit "  ") [])
  = Some (Some (lit "/usr/bin/opencode"))
  /\ OpencodeCli.isInstalled Cases.unix (Some (lit "/usr/bin/opencode"))
     = true.
Proof.
  split; [reflexivity|].
  exact (proj1 (detected_path_is_installed Cases.unix [] (lit "  ") []
                  eq_refl) eq_refl).
Defined.

End FurtherInstances.
